(** * FindDomains: the RDAP availability scripts, embedded and verified

    The repository holds four stand-alone Python scripts
    ([checkcomorai.py], [aidomains.py], [FindNames.py],
    [checkdomains_curl.py]).  Each builds a list of candidate domains,
    probes a registry once per candidate from a thread pool, classifies
    the answer and reports the candidates judged available.

    Conventions of the embedding:
    - a Python [str] is a Rocq [string]; a character stands for the code
      point of the same number (the code points below 256), and
      [str.lower], [str.isalpha] and [str.strip] are given on that range;
    - a call that leaves the process ([requests.get], [subprocess.run],
      [r.json()], [Future.result]) is an argument of the function that
      makes it: the value it returns or the exception it raises;
    - the effects a function performs besides its result
      ([tqdm.write], [time.sleep], the request itself) are returned as a
      trace, in program order, next to the value it returns or the
      exception that escapes it ([Eff.M]);
    - times are in seconds, as the scripts write them. *)

From Stdlib Require Import ZArith QArith String Ascii List Bool Lia.
From Stdlib Require Import Floats.SpecFloat.
From stdpp Require Import base gmap sets list strings sorting pretty.

Local Open Scope string_scope.
Local Open Scope list_scope.

(** ** Python primitives *)

Module Py.

(** Exceptions, by the classes the scripts' [except] clauses tell apart. *)
Inductive exn : Type :=
| Timeout                       (* requests.exceptions.Timeout *)
| ConnectionError               (* requests.exceptions.ConnectionError *)
| RequestException (msg : string) (* any other requests.exceptions.RequestException *)
| ValueError                    (* what r.json() raises on a body that is not JSON *)
| TimeoutExpired                (* subprocess.TimeoutExpired *)
| FuturesTimeoutError           (* concurrent.futures.TimeoutError *)
| OtherException (msg : string). (* any other subclass of Exception *)

Definition is_Timeout (e : exn) : bool :=
  match e with Timeout => true | _ => false end.

Definition is_RequestException (e : exn) : bool :=
  match e with
  | Timeout | ConnectionError | RequestException _ => true
  | _ => false
  end.

Definition is_ValueError (e : exn) : bool :=
  match e with ValueError => true | _ => false end.

Definition is_TimeoutExpired (e : exn) : bool :=
  match e with TimeoutExpired => true | _ => false end.

Definition is_FuturesTimeoutError (e : exn) : bool :=
  match e with FuturesTimeoutError => true | _ => false end.

(** The outcome of a call: a value, or an exception on its way up. *)
Inductive except (A : Type) : Type :=
| Return (a : A)
| Raise (e : exn).
Arguments Return {A} a.
Arguments Raise {A} e.

(** [s.split(sep)] for a one-character separator: the pieces between the
    separators, a non-empty list. *)
Fixpoint split (sep : ascii) (s : string) : list string :=
  match s with
  | EmptyString => [EmptyString]
  | String c rest =>
      if Ascii.eqb c sep then EmptyString :: split sep rest
      else match split sep rest with
           | piece :: pieces => String c piece :: pieces
           | [] => [String c EmptyString]
           end
  end.

(** [l[0]] and [l[-1]] on the result of a split (never empty). *)
Definition first (l : list string) : string := hd EmptyString l.
Definition last (l : list string) : string := List.last l EmptyString.

Definition in_range (lo hi : nat) (c : ascii) : bool :=
  (lo <=? nat_of_ascii c)%nat && (nat_of_ascii c <=? hi)%nat.

(** [str.lower] on the code points below 256: A-Z, and the Latin-1 capitals
    U+00C0..U+00DE without the multiplication sign U+00D7. *)
Definition lower_char (c : ascii) : ascii :=
  if in_range 65 90 c
     || (in_range 192 222 c && negb (nat_of_ascii c =? 215)%nat)
  then ascii_of_nat (nat_of_ascii c + 32)
  else c.

Fixpoint lower (s : string) : string :=
  match s with
  | EmptyString => EmptyString
  | String c rest => String (lower_char c) (lower rest)
  end.

(** The letters below 256: A-Z, a-z, U+00AA, U+00B5, U+00BA, U+00C0..U+00FF
    without U+00D7 and U+00F7. *)
Definition isalpha_char (c : ascii) : bool :=
  in_range 65 90 c || in_range 97 122 c
  || (nat_of_ascii c =? 170)%nat || (nat_of_ascii c =? 181)%nat
  || (nat_of_ascii c =? 186)%nat
  || (in_range 192 255 c
      && negb (nat_of_ascii c =? 215)%nat && negb (nat_of_ascii c =? 247)%nat).

Fixpoint all_chars (p : ascii -> bool) (s : string) : bool :=
  match s with
  | EmptyString => true
  | String c rest => p c && all_chars p rest
  end.

(** [s.isalpha()]: every character a letter, and at least one character. *)
Definition isalpha (s : string) : bool :=
  match s with
  | EmptyString => false
  | _ => all_chars isalpha_char s
  end.

(** White space below 256: U+0009..U+000D, U+001C..U+0020, U+0085, U+00A0. *)
Definition isspace_char (c : ascii) : bool :=
  in_range 9 13 c || in_range 28 32 c
  || (nat_of_ascii c =? 133)%nat || (nat_of_ascii c =? 160)%nat.

Fixpoint lstrip (s : string) : string :=
  match s with
  | String c rest => if isspace_char c then lstrip rest else s
  | EmptyString => EmptyString
  end.

Fixpoint rstrip (s : string) : string :=
  match s with
  | EmptyString => EmptyString
  | String c rest =>
      match rstrip rest with
      | EmptyString => if isspace_char c then EmptyString else String c EmptyString
      | kept => String c kept
      end
  end.

(** [s.strip()] *)
Definition strip (s : string) : string := rstrip (lstrip s).

(** [sub in s] on strings: [sub] occurs in [s] as a contiguous run. *)
Fixpoint contains (sub s : string) : bool :=
  String.prefix sub s
  || match s with
     | EmptyString => false
     | String _ rest => contains sub rest
     end.

(** [tmpl.format(arg)] for a template with one replacement field [{}] and
    no other brace, as every template of the scripts is. *)
Fixpoint format (tmpl arg : string) : string :=
  match tmpl with
  | String "{" (String "}" rest) => arg +:+ rest
  | String c rest => String c (format rest arg)
  | EmptyString => EmptyString
  end.

(** [l.sort()] on a list of strings: ascending by code points.  Python's
    sort is stable; on strings, equal elements are identical, so the
    result is the one sorted arrangement of the list. *)
Definition sort (l : list string) : list string := merge_sort String.le l.

End Py.


(** ** JSON values, as [r.json()] hands them to the script *)

Module Json.

#[local] Set Warnings "-register-all".

(** [json.loads] gives [None], [bool], [int], [float], [str], [list] or
    [dict] (string keys; of a repeated key the last value stays). *)
Inductive value : Type :=
| Null
| Bool (b : bool)
| Int (n : Z)
| Float (f : spec_float)
| Str (s : string)
| Array (l : list value)
| Object (m : gmap string value).

(** [f == n] for a float [f] and an int [n]: Python compares the exact
    values.  A finite float is [(-1)^s * m * 2^e]. *)
Definition float_eq_int (f : spec_float) (n : Z) : bool :=
  match f with
  | S754_zero _ => (n =? 0)%Z
  | S754_infinity _ | S754_nan => false
  | S754_finite s m e =>
      let v := if s then Z.neg m else Z.pos m in
      if (0 <=? e)%Z then (v * 2 ^ e =? n)%Z
      else (v =? n * 2 ^ (- e))%Z
  end.

(** [v == n] for an int literal [n] ([True == 1] and [False == 0] hold in
    Python; no other type equals an int). *)
Definition eq_int (v : value) (n : Z) : bool :=
  match v with
  | Int k => (k =? n)%Z
  | Float f => float_eq_int f n
  | Bool b => (Z.b2z b =? n)%Z
  | _ => false
  end.

(** [isinstance(j, dict)] *)
Definition is_dict (j : value) : bool :=
  match j with Object _ => true | _ => false end.

(** [j.get(key)] on a dict: the value, or [None]. *)
Definition get (j : value) (key : string) : value :=
  match j with
  | Object m => default Null (m !! key)
  | _ => Null
  end.

(** [isinstance(j, dict) and j.get('errorCode') in (400, 404)] *)
Definition errorCode_not_found (j : value) : bool :=
  is_dict j && (eq_int (get j "errorCode") 400 || eq_int (get j "errorCode") 404).

End Json.

(** ** Effects *)

Module Eff.
Import Py.

(** The argument of [time.sleep], in seconds. *)
Inductive duration : Type :=
| Fixed (seconds : Q)          (* time.sleep(2) *)
| Uniform (lo hi : Q).         (* time.sleep(random.uniform(lo, hi)) *)

(** What a [tqdm.write] line reports (the wording is the script's own). *)
Inductive message : Type :=
| TimeoutChecking (domain : string)
| NetworkError (domain : string) (e : exn)
| NonJson200 (domain : string)
| RateLimited (domain : string)
| UnexpectedStatus (status : Z) (domain : string)
| UnsupportedTLD (tld domain : string)
| CurlTimeout (domain url : string)
| CurlError (domain : string) (e : exn)
| WrapperError (domain : string) (e : exn)
| Available (domain : string)
| CheckTimeout (domain : string)
| ResultError (domain : string) (e : exn).

Inductive event : Type :=
| Get (url : string) (timeout : Q)    (* requests.get(url, timeout=..) *)
| Curl (url : string) (timeout : Q)   (* subprocess.run(["curl","-s","-I",url], timeout=..) *)
| Sleep (d : duration)
| Write (m : message).

(** A computation: its result, or the exception that escapes it, and the
    effects performed up to there. *)
Definition M (A : Type) : Type := (except A * list event)%type.

Definition ret {A} (a : A) : M A := (Return a, []).
Definition raise {A} (e : exn) : M A := (Raise e, []).
Definition emit (ev : event) : M unit := (Return tt, [ev]).

Definition bind {A B} (m : M A) (k : A -> M B) : M B :=
  match m with
  | (Return a, t) => let (r, t') := k a in (r, t ++ t')
  | (Raise e, t) => (Raise e, t)
  end.

Definition result {A} (m : M A) : except A := fst m.
Definition trace {A} (m : M A) : list event := snd m.

End Eff.

Declare Scope eff_scope.
Delimit Scope eff_scope with eff.
Notation "'let!' x ':=' m 'in' k" := (Eff.bind m (fun x => k))
  (at level 10, x pattern, m at level 100, k at level 200) : eff_scope.
Notation "'do!' m 'in' k" := (Eff.bind m (fun _ => k))
  (at level 10, m at level 100, k at level 200) : eff_scope.

(** ** The [requests] library, as far as the scripts use it *)

Module Requests.
Import Py.

(** A response: [r.status_code], and what [r.json()] gives on its body. *)
Record response : Type := {
  status_code : Z;
  json : except Json.value
}.

(** The network: what [requests.get] does for a URL. *)
Definition network : Type := string -> except response.

End Requests.

(** ** The thread pool, as the main loops use it *)

Module Pool.
Import Py Eff.

(** A future, as [Future.result] sees it: how long [result] has to wait
    for the call to complete (in seconds; [None]: it never completes), and
    what the call returns or raises.  The futures the main loops get are
    the ones [as_completed] hands over (below): they are done, and their
    wait is zero. *)
Record future : Type := {
  wait : option Q;
  outcome : except (string * bool)
}.

(** [future.result(timeout=..)]: the outcome of the call if it completes
    within [timeout] seconds, [TimeoutError] otherwise. *)
Definition result (f : future) (timeout : Q) : except (string * bool) :=
  match wait f with
  | Some t => if Qle_bool t timeout then outcome f else Raise FuturesTimeoutError
  | None => Raise FuturesTimeoutError
  end.

(** The state the loop updates: the shared list, and the lines written. *)
Record state : Type := {
  available_domains : list string;
  written : list message
}.

Definition initial : state := {| available_domains := []; written := [] |}.

Section loop.
(** The [timeout] of [future.result], and how the handlers name the task
    whose key in [future_to_domain] is [key]. *)
Variable timeout : Q.
Variable name_of : string -> string.

(** One round of [for future in as_completed(future_to_domain)], for the
    future and its key in [future_to_domain]. *)
Definition step (st : state) (item : string * future) : state :=
  match result (snd item) timeout with
  | Return (domain, available) =>
      if available : bool then
        {| available_domains := available_domains st ++ [domain];
           written := written st ++ [Available domain] |}
      else st
  | Raise e =>
      if is_FuturesTimeoutError e then
        {| available_domains := available_domains st;
           written := written st ++ [CheckTimeout (name_of (fst item))] |}
      else
        {| available_domains := available_domains st;
           written := written st ++ [ResultError (name_of (fst item)) e] |}
  end.

(** The rounds of the loop over [completed], the futures that
    [as_completed] hands over, in the order in which it does. *)
Definition collect (completed : list (string * future)) : state :=
  fold_left step completed initial.
End loop.

(** The futures of [executor.submit(check, key) for key in keys], paired
    with their keys, for tasks that are done when the loop sees them. *)
Definition submit_all (check : string -> except (string * bool))
    (keys : list string) : list (string * future) :=
  map (fun key => (key, {| wait := Some 0%Q; outcome := check key |})) keys.

(** A task from its submission on: the time at which its call is complete,
    in seconds from the start of the loop ([None]: the call never
    returns), and what the call returns or raises. *)
Record task : Type := {
  completes : option Q;
  returns : except (string * bool)
}.

(** The future of a task whose call is complete: [result] has nothing to
    wait for. *)
Definition done (t : task) : future :=
  {| wait := Some 0%Q; outcome := returns t |}.

(** A task that completes, with its time of completion and its future. *)
Definition completion (item : string * task) : option (Q * (string * future)) :=
  match completes (snd item) with
  | Some t => Some (t, (fst item, done (snd item)))
  | None => None
  end.

Definition earlier (a b : Q * (string * future)) : Prop :=
  Qle_bool (fst a) (fst b) = true.

#[global] Instance earlier_dec : RelDecision earlier :=
  fun a b => decide (Qle_bool (fst a) (fst b) = true).

(** [as_completed(future_to_domain)], called without a timeout: the
    futures in the order in which their calls complete, each handed over
    once it is done.  The future of a call that never returns is never
    handed over. *)
Definition as_completed (future_to_domain : list (string * task))
  : list (string * future) :=
  map snd (merge_sort earlier (omap completion future_to_domain)).

(** The [for] loop over [as_completed] ends when every future has been
    handed over; it waits for ever when a call never returns. *)
Definition loop_ends (future_to_domain : list (string * task)) : bool :=
  forallb (fun item => match completes (snd item) with
                       | Some _ => true
                       | None => false
                       end) future_to_domain.

(** The main loop over the submitted tasks: the state after the rounds for
    the futures handed over, and whether the loop ends, so that the script
    goes on to its report. *)
Definition main_loop (timeout : Q) (name_of : string -> string)
    (future_to_domain : list (string * task)) : state * bool :=
  (collect timeout name_of (as_completed future_to_domain),
   loop_ends future_to_domain).

End Pool.

Local Open Scope eff_scope.

(** The newline character of ['\n']. *)
Definition LF : ascii := "010"%char.

(** ** checkcomorai.py *)

Module CheckComOrAi.
Import Py Eff Requests.

Definition RDAP_ENDPOINTS : gmap string string :=
  {[ "com" := "https://rdap.verisign.com/com/v1/domain/{}";
     "ai"  := "https://rdap.identitydigital.services/rdap/domain/{}";
     "dev" := "https://rdap.googleapis.com/rdap/v1/domain/{}" ]}.

(** [tld = domain.split('.')[-1].lower()] *)
Definition tld (domain : string) : string := lower (last (split "." domain)).

(** The local [url] of [is_domain_available]: the RDAP URL to query. *)
Definition url (domain : string) : string :=
  match RDAP_ENDPOINTS !! tld domain with
  | Some template => format template domain
  | None => "https://rdap.iana.org/domain/" +:+ domain
  end.

Definition default_timeout : Q := 10.

Definition is_domain_available (net : network) (domain : string) (timeout : Q)
  : M bool :=
  do! emit (Get (url domain) timeout) in
  match net (url domain) with
  | Raise e => if is_RequestException e then ret false else raise e
  | Return r =>
      if (status_code r =? 404)%Z then ret true
      else if (status_code r =? 200)%Z then
        match json r with
        | Return j => if Json.errorCode_not_found j then ret true else ret false
        | Raise e => if is_ValueError e then ret false else raise e
        end
      else ret false
  end.

Definition check_domain (net : network) (domain : string) : M (string * bool) :=
  match is_domain_available net domain default_timeout with
  | (Return available, t) => (Return (domain, available), t)
  | (Raise e, t) => (Return (domain, false), t ++ [Write (WrapperError domain e)])
  end.

(** The candidate list of the script: every prefix and every suffix for
    each base name. *)
Definition prefixes : list string := [""; "try"; "get"; "use"; "my"; "the"].
Definition tlds : list string := ["com"; "ai"; "dev"].

Definition domains_of_name (name : string) : list string :=
  let cleaned_name := lower (strip name) in
  if (cleaned_name =? "")%string then []
  else
    flat_map (fun prefix =>
      map (fun tld => prefix +:+ cleaned_name +:+ "." +:+ tld) tlds) prefixes.

Definition domains_to_check (base_names_to_check : list string) : list string :=
  flat_map
    (fun name => if (name =? "")%string then [] else domains_of_name name)
    base_names_to_check.

(** The main loop ([future.result(timeout=25)]) and the list handed to the
    summary and to the file, after [available_domains.sort()]. *)
Definition result_timeout : Q := 25.

Definition collect (completed : list (string * Pool.future)) : Pool.state :=
  Pool.collect result_timeout id completed.

Definition reported (completed : list (string * Pool.future)) : list string :=
  sort (Pool.available_domains (collect completed)).

(** [future_to_domain], once every task is done: one finished future per
    candidate, holding what [check_domain] returned for it. *)
Definition future_to_domain (net : network) (domains_to_check : list string)
  : list (string * Pool.future) :=
  Pool.submit_all (fun domain => result (check_domain net domain)) domains_to_check.

(** The [for] loop of the script over its tasks. *)
Definition main_loop (tasks : list (string * Pool.task)) : Pool.state * bool :=
  Pool.main_loop result_timeout id tasks.

(** The end of the script, on the sorted list: the lines it prints, one
    per [print] call, and the strings it writes to
    [com_ai_available_domains.txt], one per [f.write] call. *)
Definition nl : string := String LF EmptyString.

Definition console (available_domains domains_to_check : list string)
  : list string :=
  [nl +:+ "--- Summary of Available Domains ---"]
  ++ match available_domains with
     | [] => ["No domains from the list were found to be available."]
     | _ => map (fun domain => "- " +:+ domain) available_domains
     end
  ++ [nl +:+ "Total available domains found: " +:+ pretty (length available_domains);
      "Total domain variations checked: " +:+ pretty (length domains_to_check)].

Definition file_writes
    (available_domains domains_to_check base_names_to_check : list string)
  : list string :=
  ["Checked " +:+ pretty (length domains_to_check)
     +:+ " domain variations (.com and .ai) for "
     +:+ pretty (length base_names_to_check) +:+ " base names." +:+ nl;
   "Total available domains found: " +:+ pretty (length available_domains)
     +:+ nl +:+ nl;
   "Available domains:" +:+ nl]
  ++ match available_domains with
     | [] => ["None" +:+ nl]
     | _ => map (fun domain => domain +:+ nl) available_domains
     end.

End CheckComOrAi.

(** ** aidomains.py *)

Module AiDomains.
Import Py Eff Requests.

Definition RDAP_AI_ENDPOINT : string :=
  "https://rdap.identitydigital.services/rdap/domain/{}".

Definition tld (domain : string) : string := lower (last (split "." domain)).

Definition url (domain : string) : string := format RDAP_AI_ENDPOINT domain.

Definition default_timeout : Q := 10.

(** The tail of [is_domain_available]: the tests on [r.status_code]. *)
Definition classify (domain : string) (r : response) : M bool :=
  if (status_code r =? 404)%Z then ret true
  else if (status_code r =? 200)%Z then
    match json r with
    | Return j => if Json.errorCode_not_found j then ret true else ret false
    | Raise e =>
        if is_ValueError e
        then do! emit (Write (NonJson200 domain)) in ret false
        else raise e
    end
  else if (status_code r =? 429)%Z then
    do! emit (Write (RateLimited domain)) in ret false
  else
    (* [elif r.status_code not in [200, 404]]: true on this branch *)
    do! emit (Write (UnexpectedStatus (status_code r) domain)) in ret false.

Definition is_domain_available (net : network) (domain : string) (timeout : Q)
  : M bool :=
  if negb (tld domain =? "ai")%string then ret false
  else
    do! emit (Get (url domain) timeout) in
    match net (url domain) with
    | Raise e =>
        if is_Timeout e then
          do! emit (Write (TimeoutChecking domain)) in ret false
        else if is_RequestException e then
          do! emit (Write (NetworkError domain e)) in ret false
        else raise e
    | Return r =>
        do! emit (Sleep (Uniform (1 # 10) (3 # 10))) in
        classify domain r
    end.

Definition check_domain_wrapper (net : network) (domain : string)
  : M (string * bool) :=
  match is_domain_available net domain default_timeout with
  | (Return available, t) => (Return (domain, available), t)
  | (Raise e, t) => (Return (domain, false), t ++ [Write (WrapperError domain e)])
  end.

(** [load_words] on the lines of a dictionary file that could be read:
    strip, lower, keep the alphabetic ones, as a set. *)
Definition load_words (lines : list string) : gset string :=
  list_to_set (filter (fun word => isalpha word = true)
                      (map (fun line => lower (strip line)) lines)).

(** [filtered_words = [word for word in all_words if 4 == len(word)]] *)
Definition filtered_words (all_words : list string) : list string :=
  filter (fun word => 4%nat = String.length word) all_words.

(** [domains_to_check = [f"{word}.ai" for word in filtered_words]] *)
Definition domains_to_check (all_words : list string) : list string :=
  map (fun word => word +:+ ".ai") (filtered_words all_words).

(** What [main] prints between loading the words and starting the pool,
    and the candidates it goes on with ([None]: it returns early).
    [dictionary] is the lines of the file, or [None] when [load_words]
    could not read it (its own message is left out).  [list(words)] lists
    a set in an order Python does not specify; [elements] stands for it,
    and the statements below use the members only. *)
Definition description : string :=
  "Check availability of 5 or 6 letter .ai domains from a dictionary.".

Definition main_candidates (dictionary : option (list string)) (workers : nat)
  : list string * option (list string) :=
  match dictionary with
  | None => ([], None)
  | Some lines =>
      let all_words := elements (load_words lines) in
      let filtered := filtered_words all_words in
      let loaded := "Loaded " +:+ pretty (length all_words) +:+ " unique words." in
      let found :=
        "Found " +:+ pretty (length filtered) +:+ " words with 5 or 6 letters." in
      match filtered with
      | [] =>
          ([loaded; found;
            "No 5 or 6 letter words found in the dictionary. Exiting."], None)
      | _ =>
          let domains := domains_to_check all_words in
          ([loaded; found;
            "Checking " +:+ pretty (length domains)
              +:+ " potential .ai domains with " +:+ pretty workers
              +:+ " workers..."],
           Some domains)
      end
  end.

(** The main loop ([future.result(timeout=30)]) and the list handed to the
    summary and to the file, after [available_domains.sort()]. *)
Definition result_timeout : Q := 30.

Definition collect (completed : list (string * Pool.future)) : Pool.state :=
  Pool.collect result_timeout id completed.

Definition reported (completed : list (string * Pool.future)) : list string :=
  sort (Pool.available_domains (collect completed)).

(** What opening and reading the dictionary does in [load_words]. *)
Inductive dictionary_file : Type :=
| Readable (lines : list string)  (* the file is read to its end *)
| NotFound                        (* [open] raises FileNotFoundError *)
| IOFailure (e : string)          (* another IOError, with its text *)
| OtherFailure (e : exn).         (* an exception that is no IOError, as the
                                     UnicodeDecodeError of a line that does
                                     not decode *)

(** [load_words(dictionary_path)] with its [try]: the lines it prints, and
    the list it returns, [None] after an error it catches; an exception it
    does not catch goes on to the caller. *)
Definition load_words_file (dictionary_path : string) (file : dictionary_file)
  : list string * except (option (list string)) :=
  match file with
  | Readable lines => ([], Return (Some (elements (load_words lines))))
  | NotFound =>
      (["Error: Dictionary file not found at " +:+ dictionary_path], Return None)
  | IOFailure e =>
      (["Error reading dictionary file " +:+ dictionary_path +:+ ": " +:+ e],
       Return None)
  | OtherFailure e => ([], Raise e)
  end.

(** [main] from its first line to the line before the pool is made: the
    lines printed, and how it goes on: with the candidates, by returning
    ([None]), or by the exception that escapes it. *)
Definition main_start (dictionary : string) (file : dictionary_file)
    (workers : nat) : list string * except (option (list string)) :=
  let loading := "Loading words from: " +:+ dictionary in
  match load_words_file dictionary file with
  | (printed, Raise e) => (loading :: printed, Raise e)
  | (printed, Return None) => (loading :: printed, Return None)
  | (printed, Return (Some all_words)) =>
      let filtered := filtered_words all_words in
      let loaded := "Loaded " +:+ pretty (length all_words) +:+ " unique words." in
      let found :=
        "Found " +:+ pretty (length filtered) +:+ " words with 5 or 6 letters." in
      match filtered with
      | [] =>
          (loading :: printed
             ++ [loaded; found;
                 "No 5 or 6 letter words found in the dictionary. Exiting."],
           Return None)
      | _ =>
          let domains := domains_to_check all_words in
          (loading :: printed
             ++ [loaded; found;
                 "Checking " +:+ pretty (length domains)
                   +:+ " potential .ai domains with " +:+ pretty workers
                   +:+ " workers..."],
           Return (Some domains))
      end
  end.

(** [future_to_domain], once every task is done: one finished future per
    candidate, holding what [check_domain_wrapper] returned for it. *)
Definition future_to_domain (net : network) (domains_to_check : list string)
  : list (string * Pool.future) :=
  Pool.submit_all (fun domain => result (check_domain_wrapper net domain))
    domains_to_check.

(** The [for] loop of [main] over its tasks. *)
Definition main_loop (tasks : list (string * Pool.task)) : Pool.state * bool :=
  Pool.main_loop result_timeout id tasks.

(** The end of [main], on the sorted list: the lines of the summary, one
    per [print] call, and the strings written to the output file, one per
    [f.write] call ([dictionary] is [args.dictionary]). *)
Definition nl : string := String LF EmptyString.

Definition summary (available_domains domains_to_check : list string)
  : list string :=
  [nl +:+ "--- Summary ---";
   "Checked " +:+ pretty (length domains_to_check) +:+ " potential domains.";
   "Found " +:+ pretty (length available_domains) +:+ " available .ai domains:"]
  ++ match available_domains with
     | [] => ["None found."]
     | _ => map (fun domain => "- " +:+ domain) available_domains
     end.

Definition file_writes (dictionary : string)
    (available_domains domains_to_check : list string) : list string :=
  ["Checked " +:+ pretty (length domains_to_check)
     +:+ " potential .ai domains (5-6 letters) from " +:+ dictionary +:+ "." +:+ nl;
   "Found " +:+ pretty (length available_domains) +:+ " available domains."
     +:+ nl +:+ nl]
  ++ match available_domains with
     | [] => ["None" +:+ nl]
     | _ => map (fun domain => domain +:+ nl) available_domains
     end.

End AiDomains.

(** ** The [curl] child process of the two curl scripts *)

Module Subprocess.
Import Py.

(** What [subprocess.run(["curl", "-s", "-I", url], capture_output=True,
    text=True, timeout=..)] does for a URL: the [stdout] of the finished
    process (the response headers; empty when curl got no response), or the
    exception [run] raises. *)
Definition curl : Type := string -> except string.

End Subprocess.

(** ** FindNames.py *)

Module FindNames.
Import Py Eff Subprocess.

(** The [timeout=5] of [subprocess.run]. *)
Definition curl_timeout : Q := 5.

Definition is_domain_available (run : curl) (domain : string) : M bool :=
  let rdap_url := "https://rdap.verisign.com/com/v1/domain/" +:+ domain in
  do! emit (Curl rdap_url curl_timeout) in
  match run rdap_url with
  | Raise e => ret false                               (* except Exception *)
  | Return stdout =>
      let status_line := first (split LF stdout) in
      if contains "404" status_line then ret true
      else if contains "200" status_line then ret false
      else
        if contains "429" status_line
        then do! emit (Sleep (Fixed 2)) in ret false
        else ret false
  end.

Definition check_domain (run : curl) (word : string) : M (string * bool) :=
  let domain := word +:+ ".com" in
  match is_domain_available run domain with
  | (Return available, t) => (Return (domain, available), t)
  | (Raise e, t) => (Return (domain, false), t)
  end.

Definition word_length : nat := 6.

(** [words_to_check], before the shuffle, from the word set of the
    [english_words] package. *)
Definition words_to_check (english_words : list string) : list string :=
  map lower (filter (fun word => String.length word = word_length) english_words).

(** The main loop ([future.result(timeout=20)]); the keys of
    [future_to_domain] are the words, and the handlers print [word.com].
    The script does not sort: the list goes to the summary as collected. *)
Definition result_timeout : Q := 20.

Definition collect (completed : list (string * Pool.future)) : Pool.state :=
  Pool.collect result_timeout (fun word => word +:+ ".com") completed.

Definition reported (completed : list (string * Pool.future)) : list string :=
  Pool.available_domains (collect completed).

(** [future_to_domain], once every task is done: one finished future per
    word, holding what [check_domain] returned for it. *)
Definition future_to_domain (run : curl) (words_to_check : list string)
  : list (string * Pool.future) :=
  Pool.submit_all (fun word => result (check_domain run word)) words_to_check.

(** The [for] loop of the script over its tasks. *)
Definition main_loop (tasks : list (string * Pool.task)) : Pool.state * bool :=
  Pool.main_loop result_timeout (fun word => word +:+ ".com") tasks.

Definition nl : string := String LF EmptyString.

(** The lines the summary prints, one per [print] call. *)
Definition console (available_domains words_to_check : list string) : list string :=
  [nl +:+ "Summary of Available Domains:"]
  ++ map (fun domain => "- " +:+ domain) available_domains
  ++ [nl +:+ "Total available domains found: " +:+ pretty (length available_domains);
      "Total words checked: " +:+ pretty (length words_to_check)].

(** The strings written to [available_domains.txt], one per [f.write]
    call: three for the header, then the loop over [available_domains]. *)
Definition file_writes (available_domains words_to_check : list string) : list string :=
  ["Total available domains found: " +:+ pretty (length available_domains) +:+ nl;
   "Total words checked: " +:+ pretty (length words_to_check) +:+ nl +:+ nl;
   "Available domains:" +:+ nl]
  ++ flat_map (fun domain => [domain +:+ nl; domain +:+ nl]) available_domains.

(** The text of the file. *)
Definition file_text (available_domains words_to_check : list string) : string :=
  String.concat "" (file_writes available_domains words_to_check).

End FindNames.

(** ** checkdomains_curl.py *)

Module CheckDomainsCurl.
Import Py Eff Subprocess.

Definition tld (domain : string) : string := lower (last (split "." domain)).

(** The local [rdap_url] of [is_domain_available]; [None] on the branch
    that returns before a URL is set. *)
Definition rdap_url (domain : string) : option string :=
  if (tld domain =? "com")%string then
    Some ("https://rdap.verisign.com/com/v1/domain/" +:+ domain)
  else if (tld domain =? "ai")%string then
    Some ("https://rdap.whois.ai/rdap/domain/" +:+ domain)
  else None.

(** The [timeout=10] of [subprocess.run]. *)
Definition curl_timeout : Q := 10.

Definition is_domain_available (run : curl) (domain : string) : M bool :=
  match rdap_url domain with
  | None =>
      do! emit (Write (UnsupportedTLD (tld domain) domain)) in ret false
  | Some rdap_url =>
      do! emit (Curl rdap_url curl_timeout) in
      match run rdap_url with
      | Raise e =>
          if is_TimeoutExpired e
          then do! emit (Write (CurlTimeout domain rdap_url)) in ret false
          else do! emit (Write (CurlError domain e)) in ret false
      | Return stdout =>
          let status_line :=
            if (stdout =? "")%string then "" else first (split LF stdout) in
          if contains "404" status_line then ret true
          else if contains "200" status_line then ret false
          else
            if contains "429" status_line
            then do! emit (Sleep (Fixed 2)) in ret false
            else ret false
      end
  end.

Definition check_domain (run : curl) (domain : string) : M (string * bool) :=
  match is_domain_available run domain with
  | (Return available, t) => (Return (domain, available), t)
  | (Raise e, t) => (Return (domain, false), t ++ [Write (WrapperError domain e)])
  end.

(** The main loop ([future.result(timeout=25)]); no sort in this script. *)
Definition result_timeout : Q := 25.

Definition collect (completed : list (string * Pool.future)) : Pool.state :=
  Pool.collect result_timeout id completed.

Definition reported (completed : list (string * Pool.future)) : list string :=
  Pool.available_domains (collect completed).

(** [future_to_domain], once every task is done: one finished future per
    domain, holding what [check_domain] returned for it. *)
Definition future_to_domain (run : curl) (domains_to_check : list string)
  : list (string * Pool.future) :=
  Pool.submit_all (fun domain => result (check_domain run domain)) domains_to_check.

(** The end of the script: the lines it prints, one per [print] call, and
    the strings it writes to [specific_available_domains.txt], one per
    [f.write] call. *)
Definition nl : string := String LF EmptyString.

Definition console (available_domains domains_to_check : list string)
  : list string :=
  [nl +:+ "Summary of Available Domains:"]
  ++ match available_domains with
     | [] => ["No domains from the list were found to be available."]
     | _ => map (fun domain => "- " +:+ domain) available_domains
     end
  ++ [nl +:+ "Total available domains found: " +:+ pretty (length available_domains);
      "Total domains checked: " +:+ pretty (length domains_to_check)].

Definition file_writes (available_domains domains_to_check : list string)
  : list string :=
  ["Checked " +:+ pretty (length domains_to_check) +:+ " specific domains." +:+ nl;
   "Total available domains found: " +:+ pretty (length available_domains)
     +:+ nl +:+ nl;
   "Available domains:" +:+ nl]
  ++ match available_domains with
     | [] => ["None" +:+ nl]
     | _ => map (fun domain => domain +:+ nl) available_domains
     end.

End CheckDomainsCurl.

(** ** The vocabulary of the statements *)

Section vocabulary.
Import Py Eff Requests.

(** No character of [s] is [sep]. *)
Definition free_of (sep : ascii) (s : string) : bool :=
  all_chars (fun c => negb (Ascii.eqb c sep)) s.

(** The header line the curl scripts look at: the first line of what curl
    printed. *)
Definition status_line (stdout : string) : string := first (split LF stdout).

(** What the [requests] documentation promises: [requests.get] raises
    nothing but a [RequestException], [r.json()] nothing but a
    [ValueError]. *)
Definition library_contract (net : network) : Prop :=
  forall u,
    match net u with
    | Raise e => is_RequestException e = true
    | Return r =>
        match json r with
        | Raise e => is_ValueError e = true
        | Return _ => True
        end
    end.

(** A delay that is drawn at random from a range within the hundreds of
    milliseconds. *)
Definition brief_random (d : duration) : Prop :=
  match d with
  | Uniform lo hi => (1 # 10 <= lo)%Q /\ (lo < hi)%Q /\ (hi < 1)%Q
  | Fixed _ => False
  end.

(** The reason of a rate limit is among the lines written. *)
Definition reason_rate_limited (domain : string) (t : list event) : Prop :=
  In (Write (RateLimited domain)) t.

(** A brief random delay is among the effects. *)
Definition delayed_briefly (t : list event) : Prop :=
  exists d, In (Sleep d) t /\ brief_random d.

Definition is_request (ev : event) : bool :=
  match ev with Get _ _ | Curl _ _ => true | _ => false end.

(** The number of requests among the effects. *)
Definition requests_made (t : list event) : nat :=
  length (List.filter is_request t).

(** The domain a round of the main loop appends, if it appends one. *)
Definition appended (timeout : Q) (item : string * Pool.future) : option string :=
  match Pool.result (snd item) timeout with
  | Return (domain, true) => Some domain
  | _ => None
  end.

End vocabulary.

(** ** Sample inputs *)

Section samples.
Import Py Eff Requests.

(** A network without answers. *)
Definition unreachable : network := fun _ => Raise ConnectionError.

(** The body [{"errorCode": 404}] as [r.json()] gives it. *)
Definition not_found_body : Json.value :=
  Json.Object {[ "errorCode" := Json.Int 404 ]}.

(** A 200 response, by what [r.json()] does on its body. *)
Definition ok_with (body : except Json.value) : response :=
  {| status_code := 200; json := body |}.

Definition not_found : response :=
  {| status_code := 404; json := Raise ValueError |}.

Definition too_many_requests : response :=
  {| status_code := 429; json := Raise ValueError |}.

(** The float 400.0: [7036874417766400 * 2^-44]. *)
Definition float_400 : spec_float := S754_finite false 7036874417766400 (-44).

(** A finished task that found its domain available. *)
Definition found (domain : string) : Pool.future :=
  {| Pool.wait := Some 0%Q; Pool.outcome := Return (domain, true) |}.

(** Two such tasks, in the two orders of completion. *)
Definition soil_first : list (string * Pool.future) :=
  [("soil", found "soil.com"); ("acre", found "acre.com")].

Definition acre_first : list (string * Pool.future) :=
  [("acre", found "acre.com"); ("soil", found "soil.com")].

(** A task that finds its domain available after [seconds]; and one whose
    call never returns. *)
Definition finds (domain : string) (seconds : Q) : Pool.task :=
  {| Pool.completes := Some seconds; Pool.returns := Return (domain, true) |}.

Definition hangs (domain : string) : Pool.task :=
  {| Pool.completes := None; Pool.returns := Return (domain, true) |}.

(** Three tasks of [aidomains.py]; the call for [late.ai] takes 31 seconds,
    longer than the 30 seconds of [future.result(timeout=30)]. *)
Definition with_a_slow_task : list (string * Pool.task) :=
  [("soil.ai", finds "soil.ai" 1); ("late.ai", finds "late.ai" 31);
   ("acre.ai", finds "acre.ai" 2)].

(** The same, with a call that never returns in place of the slow one. *)
Definition with_a_hung_task : list (string * Pool.task) :=
  [("soil.ai", finds "soil.ai" 1); ("hung.ai", hangs "hung.ai");
   ("acre.ai", finds "acre.ai" 2)].

(** The lines of a small dictionary file. *)
Definition small_dictionary : list string :=
  ["Soil" +:+ FindNames.nl; "apple" +:+ FindNames.nl; "it's" +:+ FindNames.nl;
   "acre" +:+ FindNames.nl; "soil"].

End samples.

(** * Properties *)

(** ** Facts about the Python primitives *)

Section py_facts.
Import Py.

Lemma split_nonempty sep s : split sep s <> [].
Proof.
  destruct s as [|c s]; simpl; [discriminate|].
  destruct (Ascii.eqb c sep); [discriminate|].
  destruct (split sep s); discriminate.
Qed.

Lemma split_free sep s : free_of sep s = true -> split sep s = [s].
Proof.
  induction s as [|c s IH]; simpl; [reflexivity|].
  intros [Hc Hs]%andb_prop. apply negb_true_iff in Hc.
  rewrite Hc, (IH Hs). reflexivity.
Qed.

(** Splitting distributes over a separator. *)
Lemma split_app sep a b :
  split sep (a +:+ String sep b) = split sep a ++ split sep b.
Proof.
  induction a as [|c a IH]; simpl.
  - rewrite Ascii.eqb_refl. reflexivity.
  - rewrite IH. destruct (Ascii.eqb c sep); [reflexivity|].
    pose proof (split_nonempty sep a) as Hne.
    destruct (split sep a); [contradiction|reflexivity].
Qed.

Lemma last_app_nonempty (l1 l2 : list string) :
  l2 <> [] -> last (l1 ++ l2) = last l2.
Proof.
  unfold last. intros Hne. induction l1 as [|x l1 IH]; [reflexivity|].
  simpl. destruct (l1 ++ l2) eqn:E; [|exact IH].
  apply app_eq_nil in E as [_ ->]. contradiction.
Qed.

(** [s.split(sep)[-1]] is what follows the last separator ... *)
Lemma last_split_after sep pre suf :
  free_of sep suf = true ->
  last (split sep (pre +:+ String sep suf)) = suf.
Proof.
  intros Hfree. rewrite split_app, last_app_nonempty by apply split_nonempty.
  rewrite split_free by assumption. reflexivity.
Qed.

(** ... and the whole string when there is none. *)
Lemma last_split_free sep s : free_of sep s = true -> last (split sep s) = s.
Proof. intros Hfree. rewrite split_free by assumption. reflexivity. Qed.

Lemma first_split_before sep pre suf :
  free_of sep pre = true ->
  first (split sep (pre +:+ String sep suf)) = pre.
Proof.
  intros Hfree. rewrite split_app, split_free by assumption. reflexivity.
Qed.

Lemma append_empty_r s : s +:+ "" = s.
Proof.
  induction s as [|c s IH]; [reflexivity|].
  change (String c (s +:+ "") = String c s). rewrite IH. reflexivity.
Qed.

Lemma prefix_app sub post : String.prefix sub (sub +:+ post) = true.
Proof.
  induction sub as [|c sub IH]; simpl.
  - destruct post; reflexivity.
  - destruct (ascii_dec c c); [exact IH|contradiction].
Qed.

Lemma contains_prefix sub s : String.prefix sub s = true -> contains sub s = true.
Proof. intros Hp. destruct s; cbn [contains]; rewrite Hp; reflexivity. Qed.

Lemma contains_after sub pre s :
  contains sub s = true -> contains sub (pre +:+ s) = true.
Proof.
  intros Hs. induction pre as [|c pre IH]; [exact Hs|].
  simpl. rewrite IH. apply orb_true_r.
Qed.

(** [sub in s] holds wherever [sub] sits in [s]. *)
Lemma contains_app sub pre post : contains sub (pre +:+ sub +:+ post) = true.
Proof. apply contains_after, contains_prefix, prefix_app. Qed.

Lemma sort_Permutation l : sort l ≡ₚ l.
Proof. apply merge_sort_Permutation. Qed.

Lemma sort_Sorted l : Sorted String.le (sort l).
Proof. apply (Sorted_merge_sort String.le). Qed.

(** The sorted list depends on the entries only, not on their order. *)
Lemma sort_order_independent l1 l2 : l1 ≡ₚ l2 -> sort l1 = sort l2.
Proof.
  intros Hperm. apply (Sorted_unique String.le); try apply sort_Sorted.
  rewrite !sort_Permutation. exact Hperm.
Qed.

End py_facts.

(** ** Facts about effects *)

Section eff_facts.
Import Py Eff.

Lemma bind_emit {A} (ev : event) (k : M A) :
  (do! emit ev in k) = (result k, ev :: trace k).
Proof. destruct k as [r t]. reflexivity. Qed.

End eff_facts.

(** ** The resolver *)

Section resolver.
Import Py Eff Requests.

Lemma endpoints_lookup (t : string) :
  CheckComOrAi.RDAP_ENDPOINTS !! t =
    if decide (t = "com") then Some "https://rdap.verisign.com/com/v1/domain/{}"
    else if decide (t = "ai")
      then Some "https://rdap.identitydigital.services/rdap/domain/{}"
    else if decide (t = "dev") then Some "https://rdap.googleapis.com/rdap/v1/domain/{}"
    else None.
Proof.
  unfold CheckComOrAi.RDAP_ENDPOINTS.
  repeat case_decide; subst; simplify_map_eq; reflexivity.
Qed.

Lemma endpoints_keys (t : string) :
  is_Some (CheckComOrAi.RDAP_ENDPOINTS !! t) <-> t = "com" \/ t = "ai" \/ t = "dev".
Proof.
  rewrite endpoints_lookup. repeat case_decide; subst; split; intros Hkey;
    try (eexists; reflexivity); try (destruct Hkey as [? ?]; discriminate);
    intuition congruence.
Qed.

(** The suffix the scripts look at: what follows the last dot, lower-cased;
    the whole string when it has no dot. *)
Lemma tld_after_last_dot pre suf :
  free_of "." suf = true ->
  CheckComOrAi.tld (pre +:+ "." +:+ suf) = lower suf.
Proof.
  intros Hfree. unfold CheckComOrAi.tld.
  change (pre +:+ "." +:+ suf) with (pre +:+ String "." suf).
  rewrite last_split_after by assumption. reflexivity.
Qed.

Lemma tld_no_dot s : free_of "." s = true -> CheckComOrAi.tld s = lower s.
Proof. intros Hfree. unfold CheckComOrAi.tld. rewrite last_split_free; auto. Qed.

Lemma checkcomorai_url domain :
  CheckComOrAi.url domain =
    if decide (CheckComOrAi.tld domain = "com")
      then "https://rdap.verisign.com/com/v1/domain/" +:+ domain
    else if decide (CheckComOrAi.tld domain = "ai")
      then "https://rdap.identitydigital.services/rdap/domain/" +:+ domain
    else if decide (CheckComOrAi.tld domain = "dev")
      then "https://rdap.googleapis.com/rdap/v1/domain/" +:+ domain
    else "https://rdap.iana.org/domain/" +:+ domain.
Proof.
  unfold CheckComOrAi.url. rewrite endpoints_lookup.
  repeat case_decide; simpl; rewrite ?append_empty_r; reflexivity.
Qed.

Lemma checkcomorai_requests_url net domain timeout :
  exists rest,
    trace (CheckComOrAi.is_domain_available net domain timeout)
    = Get (CheckComOrAi.url domain) timeout :: rest.
Proof.
  unfold CheckComOrAi.is_domain_available. rewrite bind_emit.
  eexists; reflexivity.
Qed.

Lemma aidomains_url domain :
  AiDomains.url domain
  = "https://rdap.identitydigital.services/rdap/domain/" +:+ domain.
Proof. unfold AiDomains.url. simpl. rewrite append_empty_r. reflexivity. Qed.

Lemma aidomains_other_suffix net domain timeout :
  AiDomains.tld domain <> "ai" ->
  AiDomains.is_domain_available net domain timeout = (Return false, []).
Proof.
  intros Hne. unfold AiDomains.is_domain_available.
  apply String.eqb_neq in Hne. rewrite Hne. reflexivity.
Qed.

Lemma aidomains_requests_url net domain timeout :
  AiDomains.tld domain = "ai" ->
  exists rest,
    trace (AiDomains.is_domain_available net domain timeout)
    = Get (AiDomains.url domain) timeout :: rest.
Proof.
  intros Hai. unfold AiDomains.is_domain_available, trace.
  apply String.eqb_eq in Hai. rewrite Hai. simpl negb. cbv iota.
  rewrite bind_emit. eexists; reflexivity.
Qed.

Lemma curl_rdap_url domain :
  CheckDomainsCurl.rdap_url domain =
    if decide (CheckDomainsCurl.tld domain = "com")
      then Some ("https://rdap.verisign.com/com/v1/domain/" +:+ domain)
    else if decide (CheckDomainsCurl.tld domain = "ai")
      then Some ("https://rdap.whois.ai/rdap/domain/" +:+ domain)
    else None.
Proof.
  unfold CheckDomainsCurl.rdap_url.
  repeat case_decide;
    repeat match goal with
    | H : _ = _ |- _ => apply String.eqb_eq in H; rewrite H
    | H : _ <> _ |- _ => apply String.eqb_neq in H; rewrite H
    end; reflexivity.
Qed.

Lemma curl_other_suffix run domain :
  CheckDomainsCurl.rdap_url domain = None ->
  CheckDomainsCurl.is_domain_available run domain
  = (Return false, [Write (UnsupportedTLD (CheckDomainsCurl.tld domain) domain)]).
Proof. intros Hnone. unfold CheckDomainsCurl.is_domain_available. rewrite Hnone. reflexivity. Qed.

End resolver.

Section resolver_claim.
Import Py Eff Requests.

(** C3, as amended.  In [checkcomorai.py] the resolver gives a query URL
    for every domain string and the request goes to it: when the
    lower-cased text after the last dot (the whole string when it has no
    dot) is a key of [RDAP_ENDPOINTS] the domain is formatted into that
    key's template, and for any other suffix into the IANA bootstrap URL.
    [aidomains.py] and [checkdomains_curl.py] have no bootstrap: for a
    suffix outside their own table ([ai]; [com] and [ai]) they set no URL,
    make no request and answer False. *)
Theorem C3_resolver_per_script (domain : string) :
  ( (forall pre suf, free_of "." suf = true -> domain = pre +:+ "." +:+ suf ->
       CheckComOrAi.tld domain = lower suf)
    /\ (free_of "." domain = true -> CheckComOrAi.tld domain = lower domain)
    /\ (AiDomains.tld domain = CheckComOrAi.tld domain
        /\ CheckDomainsCurl.tld domain = CheckComOrAi.tld domain)
    /\ (forall template,
          CheckComOrAi.RDAP_ENDPOINTS !! CheckComOrAi.tld domain = Some template ->
          CheckComOrAi.url domain = format template domain)
    /\ (CheckComOrAi.RDAP_ENDPOINTS !! CheckComOrAi.tld domain = None ->
          CheckComOrAi.url domain = "https://rdap.iana.org/domain/" +:+ domain)
    /\ (forall net timeout, exists rest,
          trace (CheckComOrAi.is_domain_available net domain timeout)
          = Get (CheckComOrAi.url domain) timeout :: rest)
    /\ CheckComOrAi.url domain =
         if decide (CheckComOrAi.tld domain = "com")
           then "https://rdap.verisign.com/com/v1/domain/" +:+ domain
         else if decide (CheckComOrAi.tld domain = "ai")
           then "https://rdap.identitydigital.services/rdap/domain/" +:+ domain
         else if decide (CheckComOrAi.tld domain = "dev")
           then "https://rdap.googleapis.com/rdap/v1/domain/" +:+ domain
         else "https://rdap.iana.org/domain/" +:+ domain )
  /\
  ( (AiDomains.tld domain = "ai" ->
       forall net timeout, exists rest,
         trace (AiDomains.is_domain_available net domain timeout)
         = Get ("https://rdap.identitydigital.services/rdap/domain/" +:+ domain)
               timeout :: rest)
    /\ (AiDomains.tld domain <> "ai" ->
          forall net timeout,
            AiDomains.is_domain_available net domain timeout = (Return false, [])) )
  /\
  ( (CheckDomainsCurl.tld domain = "com" ->
       CheckDomainsCurl.rdap_url domain
       = Some ("https://rdap.verisign.com/com/v1/domain/" +:+ domain))
    /\ (CheckDomainsCurl.tld domain = "ai" ->
          CheckDomainsCurl.rdap_url domain
          = Some ("https://rdap.whois.ai/rdap/domain/" +:+ domain))
    /\ (CheckDomainsCurl.tld domain <> "com" ->
        CheckDomainsCurl.tld domain <> "ai" ->
          CheckDomainsCurl.rdap_url domain = None
          /\ forall run,
               CheckDomainsCurl.is_domain_available run domain
               = (Return false,
                  [Write (UnsupportedTLD (CheckDomainsCurl.tld domain) domain)])) ).
Proof.
  split; [|split].
  - split; [|split; [|split; [|split; [|split; [|split]]]]].
    + intros pre suf Hfree ->. apply tld_after_last_dot, Hfree.
    + apply tld_no_dot.
    + split; reflexivity.
    + intros template Hkey. unfold CheckComOrAi.url. rewrite Hkey. reflexivity.
    + intros Hnone. unfold CheckComOrAi.url. rewrite Hnone. reflexivity.
    + intros net timeout. apply checkcomorai_requests_url.
    + apply checkcomorai_url.
  - split.
    + intros Hai net timeout. rewrite <- aidomains_url.
      apply aidomains_requests_url, Hai.
    + intros Hne net timeout. apply aidomains_other_suffix, Hne.
  - rewrite curl_rdap_url. split; [|split].
    + intros Hcom. rewrite decide_True by assumption. reflexivity.
    + intros Hai. rewrite decide_False by (rewrite Hai; discriminate).
      rewrite decide_True by assumption. reflexivity.
    + intros Hcom Hai. rewrite !decide_False by assumption.
      split; [reflexivity|]. intros run. apply curl_other_suffix.
      rewrite curl_rdap_url, !decide_False by assumption. reflexivity.
Qed.

Lemma C3_resolver_per_script_witness :
  CheckComOrAi.url "MCPHub.COM" = "https://rdap.verisign.com/com/v1/domain/MCPHub.COM"
  /\ CheckComOrAi.url "soil.zz" = "https://rdap.iana.org/domain/soil.zz"
  /\ CheckComOrAi.tld "try.soil.Dev" = "dev"
  /\ AiDomains.is_domain_available unreachable "soil.com" 10 = (Return false, [])
  /\ CheckDomainsCurl.rdap_url "soil.ai" = Some "https://rdap.whois.ai/rdap/domain/soil.ai"
  /\ CheckDomainsCurl.rdap_url "soil.dev" = None.
Proof.
  split; [|split; [|split; [|split; [|split]]]].
  - destruct (C3_resolver_per_script "MCPHub.COM") as [(_ & _ & _ & Hkey & _) _].
    apply (Hkey "https://rdap.verisign.com/com/v1/domain/{}"). vm_compute. reflexivity.
  - destruct (C3_resolver_per_script "soil.zz") as [(_ & _ & _ & _ & Hnone & _) _].
    apply Hnone. vm_compute. reflexivity.
  - destruct (C3_resolver_per_script "try.soil.Dev") as [(Htld & _) _].
    apply (Htld "try.soil" "Dev"); reflexivity.
  - destruct (C3_resolver_per_script "soil.com") as (_ & (_ & Hother) & _).
    apply Hother. vm_compute. discriminate.
  - destruct (C3_resolver_per_script "soil.ai") as (_ & _ & (_ & Hai & _)).
    apply Hai. reflexivity.
  - destruct (C3_resolver_per_script "soil.dev") as (_ & _ & (_ & _ & Hother)).
    apply Hother; vm_compute; discriminate.
Defined.

(** C3 as stated fails on the two scripts without a bootstrap: for a suffix
    outside their table they produce no URL and make no request, also when
    the registry would answer 404. *)
Lemma C3_counterexample :
  CheckDomainsCurl.rdap_url "example.org" = None
  /\ CheckDomainsCurl.rdap_url "example.org"
     <> Some "https://rdap.iana.org/domain/example.org"
  /\ CheckDomainsCurl.is_domain_available
       (fun _ => Return "HTTP/1.1 404 Not Found") "example.org"
     = (Return false, [Write (UnsupportedTLD "org" "example.org")])
  /\ AiDomains.is_domain_available (fun _ => Return not_found) "example.org" 10
     = (Return false, []).
Proof.
  split; [reflexivity|]. split; [vm_compute; discriminate|].
  split; reflexivity.
Qed.

End resolver_claim.

(** ** The classification *)

Section classification.
Import Py Eff Requests Subprocess.

(** What [isinstance(j, dict) and j.get('errorCode') in (400, 404)] accepts:
    a dict with the key, whose value compares equal to one of the codes. *)
Lemma errorCode_not_found_spec (j : Json.value) :
  Json.errorCode_not_found j = true <->
  exists (m : gmap string Json.value) (v : Json.value),
    j = Json.Object m /\ m !! "errorCode" = Some v
    /\ (Json.eq_int v 400 = true \/ Json.eq_int v 404 = true).
Proof.
  unfold Json.errorCode_not_found. split.
  - destruct j as [| | | | | |m]; simpl; try discriminate.
    destruct (m !! "errorCode") as [v|] eqn:E; simpl; [|discriminate].
    intros H%orb_prop. exists m, v. auto.
  - intros (m & v & -> & Hv & Hcode). simpl. rewrite Hv. simpl.
    apply orb_true_iff. exact Hcode.
Qed.

(** The values that compare equal to a status code: the int itself, or a
    float of exactly that value. *)
Lemma eq_int_code (v : Json.value) (n : Z) :
  (2 <= n)%Z ->
  Json.eq_int v n = true <->
  v = Json.Int n \/ exists f, v = Json.Float f /\ Json.float_eq_int f n = true.
Proof.
  intros Hn. split.
  - destruct v as [|b|k|f| | |]; cbn [Json.eq_int]; try discriminate.
    + intros H%Z.eqb_eq. destruct b; simpl in H; lia.
    + intros H%Z.eqb_eq. left. congruence.
    + intros H. right. exists f. auto.
  - intros [->|(f & -> & H)]; simpl; [apply Z.eqb_refl|exact H].
Qed.

Lemma checkcomorai_response net domain timeout r :
  net (CheckComOrAi.url domain) = Return r ->
  CheckComOrAi.is_domain_available net domain timeout =
    ( (if (status_code r =? 404)%Z then Return true
       else if (status_code r =? 200)%Z then
         match json r with
         | Return j => Return (Json.errorCode_not_found j)
         | Raise e => if is_ValueError e then Return false else Raise e
         end
       else Return false),
      [Get (CheckComOrAi.url domain) timeout] ).
Proof.
  intros Hnet. unfold CheckComOrAi.is_domain_available. rewrite bind_emit, Hnet.
  destruct (status_code r =? 404)%Z; [reflexivity|].
  destruct (status_code r =? 200)%Z; [|reflexivity].
  destruct (json r) as [j|e].
  - destruct (Json.errorCode_not_found j); reflexivity.
  - destruct (is_ValueError e); reflexivity.
Qed.

Lemma checkcomorai_error net domain timeout e :
  net (CheckComOrAi.url domain) = Raise e ->
  is_RequestException e = true ->
  CheckComOrAi.is_domain_available net domain timeout
  = (Return false, [Get (CheckComOrAi.url domain) timeout]).
Proof.
  intros Hnet He. unfold CheckComOrAi.is_domain_available.
  rewrite bind_emit, Hnet, He. reflexivity.
Qed.

Lemma aidomains_response net domain timeout r :
  AiDomains.tld domain = "ai" ->
  net (AiDomains.url domain) = Return r ->
  AiDomains.is_domain_available net domain timeout =
    ( result (AiDomains.classify domain r),
      Get (AiDomains.url domain) timeout
        :: Sleep (Uniform (1 # 10) (3 # 10))
        :: trace (AiDomains.classify domain r) ).
Proof.
  intros Hai%String.eqb_eq Hnet. unfold AiDomains.is_domain_available.
  rewrite Hai. simpl negb. cbv iota. rewrite bind_emit, Hnet, bind_emit.
  reflexivity.
Qed.

Lemma aidomains_error net domain timeout e :
  AiDomains.tld domain = "ai" ->
  net (AiDomains.url domain) = Raise e ->
  is_RequestException e = true ->
  AiDomains.is_domain_available net domain timeout =
    ( Return false,
      [Get (AiDomains.url domain) timeout;
       Write (if is_Timeout e then TimeoutChecking domain
              else NetworkError domain e)] ).
Proof.
  intros Hai%String.eqb_eq Hnet He. unfold AiDomains.is_domain_available.
  rewrite Hai. simpl negb. cbv iota. rewrite bind_emit, Hnet.
  destruct (is_Timeout e); [reflexivity|]. rewrite He. reflexivity.
Qed.

Lemma aidomains_classify_200 domain r :
  status_code r = 200%Z ->
  AiDomains.classify domain r =
    match json r with
    | Return j => (Return (Json.errorCode_not_found j), [])
    | Raise e =>
        if is_ValueError e then (Return false, [Write (NonJson200 domain)])
        else (Raise e, [])
    end.
Proof.
  intros Hs. unfold AiDomains.classify. rewrite Hs. simpl.
  destruct (json r) as [j|e].
  - destruct (Json.errorCode_not_found j); reflexivity.
  - destruct (is_ValueError e); reflexivity.
Qed.

Lemma findnames_response run domain stdout :
  run ("https://rdap.verisign.com/com/v1/domain/" +:+ domain) = Return stdout ->
  FindNames.is_domain_available run domain =
    let url := "https://rdap.verisign.com/com/v1/domain/" +:+ domain in
    if contains "404" (status_line stdout) then (Return true, [Curl url 5])
    else if contains "200" (status_line stdout) then (Return false, [Curl url 5])
    else if contains "429" (status_line stdout)
      then (Return false, [Curl url 5; Sleep (Fixed 2)])
    else (Return false, [Curl url 5]).
Proof.
  intros Hrun. unfold FindNames.is_domain_available, status_line.
  rewrite bind_emit, Hrun.
  destruct (contains "404" _); [reflexivity|].
  destruct (contains "200" _); [reflexivity|].
  destruct (contains "429" _); reflexivity.
Qed.

Lemma findnames_error run domain e :
  run ("https://rdap.verisign.com/com/v1/domain/" +:+ domain) = Raise e ->
  FindNames.is_domain_available run domain
  = (Return false, [Curl ("https://rdap.verisign.com/com/v1/domain/" +:+ domain) 5]).
Proof.
  intros Hrun. unfold FindNames.is_domain_available. cbv zeta.
  rewrite bind_emit, Hrun. reflexivity.
Qed.

Lemma curl_status_line stdout :
  (if (stdout =? "")%string then "" else first (split LF stdout)) = status_line stdout.
Proof. destruct (String.eqb_spec stdout "") as [->|]; reflexivity. Qed.

Lemma curl_response run domain url stdout :
  CheckDomainsCurl.rdap_url domain = Some url ->
  run url = Return stdout ->
  CheckDomainsCurl.is_domain_available run domain =
    if contains "404" (status_line stdout) then (Return true, [Curl url 10])
    else if contains "200" (status_line stdout) then (Return false, [Curl url 10])
    else if contains "429" (status_line stdout)
      then (Return false, [Curl url 10; Sleep (Fixed 2)])
    else (Return false, [Curl url 10]).
Proof.
  intros Hurl Hrun. unfold CheckDomainsCurl.is_domain_available.
  rewrite Hurl, bind_emit, Hrun, curl_status_line.
  destruct (contains "404" _); [reflexivity|].
  destruct (contains "200" _); [reflexivity|].
  destruct (contains "429" _); reflexivity.
Qed.

End classification.

Section classification_claims.
Import Py Eff Requests Subprocess.

(** C1, as amended.  In [checkcomorai.py] and [aidomains.py], for every
    probe answered with status 200 the body is inspected: the verdict is
    Available exactly when [r.json()] gives a dict whose [errorCode]
    compares equal to 400 or 404 (the int, or a float of that value), and
    Unavailable when it gives anything else or the body is not JSON.  [FindNames.py] asks curl for the headers
    only and inspects no body: a first header line that contains 200 and
    not 404 gives Unavailable. *)
Theorem C1_json_inspection_on_200 (domain : string) (timeout : Q) (r : response) :
  status_code r = 200%Z ->
  (forall j, Json.errorCode_not_found j = true <->
     exists (m : gmap string Json.value) (v : Json.value),
       j = Json.Object m /\ m !! "errorCode" = Some v
       /\ (Json.eq_int v 400 = true \/ Json.eq_int v 404 = true))
  /\
  (forall net, net (CheckComOrAi.url domain) = Return r ->
     (forall j, json r = Return j ->
        result (CheckComOrAi.is_domain_available net domain timeout)
        = Return (Json.errorCode_not_found j))
     /\ (forall e, json r = Raise e -> is_ValueError e = true ->
           result (CheckComOrAi.is_domain_available net domain timeout)
           = Return false))
  /\
  (forall net, AiDomains.tld domain = "ai" -> net (AiDomains.url domain) = Return r ->
     (forall j, json r = Return j ->
        result (AiDomains.is_domain_available net domain timeout)
        = Return (Json.errorCode_not_found j))
     /\ (forall e, json r = Raise e -> is_ValueError e = true ->
           result (AiDomains.is_domain_available net domain timeout)
           = Return false))
  /\
  (forall run stdout,
     run ("https://rdap.verisign.com/com/v1/domain/" +:+ domain) = Return stdout ->
     contains "404" (status_line stdout) = false ->
     contains "200" (status_line stdout) = true ->
     result (FindNames.is_domain_available run domain) = Return false)
  /\
  (forall v code, code = 400%Z \/ code = 404%Z ->
     (Json.eq_int v code = true <->
        v = Json.Int code
        \/ exists f, v = Json.Float f /\ Json.float_eq_int f code = true)).
Proof.
  intros Hs. split; [exact errorCode_not_found_spec|]. split; [|split; [|split]].
  - intros net Hnet. rewrite (checkcomorai_response _ _ _ _ Hnet), Hs. simpl.
    split.
    + intros j ->. reflexivity.
    + intros e -> ->. reflexivity.
  - intros net Hai Hnet.
    rewrite (aidomains_response _ _ _ _ Hai Hnet), (aidomains_classify_200 _ _ Hs).
    split.
    + intros j ->. reflexivity.
    + intros e -> ->. reflexivity.
  - intros run stdout Hrun H404 H200.
    rewrite (findnames_response _ _ _ Hrun). simpl. rewrite H404, H200. reflexivity.
  - intros v code Hcode. apply eq_int_code. lia.
Qed.

Lemma C1_json_inspection_on_200_witness :
  result (CheckComOrAi.is_domain_available
            (fun _ => Return (ok_with (Return not_found_body))) "soil.ai" 10)
    = Return true
  /\ result (AiDomains.is_domain_available
               (fun _ => Return (ok_with (Raise ValueError))) "soil.ai" 10)
     = Return false
  /\ result (FindNames.is_domain_available
               (fun _ => Return "HTTP/1.1 200 OK") "soil.com")
     = Return false.
Proof.
  split; [|split].
  - destruct (C1_json_inspection_on_200 "soil.ai" 10 (ok_with (Return not_found_body))
                eq_refl) as (_ & Hcheck & _).
    destruct (Hcheck (fun _ => Return (ok_with (Return not_found_body))) eq_refl)
      as [Hjson _].
    exact (Hjson not_found_body eq_refl).
  - destruct (C1_json_inspection_on_200 "soil.ai" 10 (ok_with (Raise ValueError))
                eq_refl) as (_ & _ & Hai & _).
    destruct (Hai (fun _ => Return (ok_with (Raise ValueError))) eq_refl eq_refl)
      as [_ Hraise].
    exact (Hraise ValueError eq_refl eq_refl).
  - destruct (C1_json_inspection_on_200 "soil.com" 10 (ok_with (Raise ValueError))
                eq_refl) as (_ & _ & _ & Hcurl & _).
    apply (Hcurl (fun _ => Return "HTTP/1.1 200 OK") "HTTP/1.1 200 OK");
      reflexivity.
Defined.

(** C1 as stated fails on [FindNames.py]: its verdict on a 200 answer is
    Unavailable whatever body the registry sends, also the body
    [{"errorCode": 404}] that the claim (and the two requests scripts)
    take for Available. *)
Lemma C1_counterexample :
  ~ (forall body : except Json.value,
       result (FindNames.is_domain_available
                 (fun _ => Return "HTTP/1.1 200 OK") "soil.com")
       = Return (match body with
                 | Return j => Json.errorCode_not_found j
                 | Raise _ => false
                 end)).
Proof. intros H. specialize (H (Return not_found_body)). vm_compute in H. discriminate. Qed.

End classification_claims.

Section status_claims.
Import Py Eff Requests Subprocess.



Lemma checkcomorai_total net domain timeout :
  library_contract net ->
  exists b, result (CheckComOrAi.is_domain_available net domain timeout) = Return b.
Proof.
  intros Hlib. specialize (Hlib (CheckComOrAi.url domain)).
  destruct (net (CheckComOrAi.url domain)) as [r|e] eqn:Hnet.
  - rewrite (checkcomorai_response _ _ _ _ Hnet). simpl.
    destruct (status_code r =? 404)%Z; [eauto|].
    destruct (status_code r =? 200)%Z; [|eauto].
    destruct (json r) as [j|e]; [eauto|]. rewrite Hlib. eauto.
  - rewrite (checkcomorai_error _ _ _ _ Hnet Hlib). eauto.
Qed.

Lemma aidomains_classify_total domain r :
  match json r with Raise e => is_ValueError e = true | Return _ => True end ->
  exists b, result (AiDomains.classify domain r) = Return b.
Proof.
  intros Hjson. unfold AiDomains.classify.
  destruct (status_code r =? 404)%Z; [eauto|].
  destruct (status_code r =? 200)%Z.
  - destruct (json r) as [j|e].
    + destruct (Json.errorCode_not_found j); eauto.
    + rewrite Hjson. eauto.
  - destruct (status_code r =? 429)%Z; eauto.
Qed.

Lemma aidomains_total net domain timeout :
  library_contract net ->
  exists b, result (AiDomains.is_domain_available net domain timeout) = Return b.
Proof.
  intros Hlib. destruct (decide (AiDomains.tld domain = "ai")) as [Hai|Hne].
  - specialize (Hlib (AiDomains.url domain)).
    destruct (net (AiDomains.url domain)) as [r|e] eqn:Hnet.
    + rewrite (aidomains_response _ _ _ _ Hai Hnet). simpl.
      apply aidomains_classify_total, Hlib.
    + rewrite (aidomains_error _ _ _ _ Hai Hnet Hlib). eauto.
  - rewrite (aidomains_other_suffix _ _ _ Hne). eauto.
Qed.

Lemma findnames_total run domain :
  exists b, result (FindNames.is_domain_available run domain) = Return b.
Proof.
  destruct (run ("https://rdap.verisign.com/com/v1/domain/" +:+ domain))
    as [stdout|e] eqn:Hrun.
  - rewrite (findnames_response _ _ _ Hrun). cbv zeta.
    destruct (contains "404" _); [eauto|].
    destruct (contains "200" _); [eauto|].
    destruct (contains "429" _); eauto.
  - rewrite (findnames_error _ _ _ Hrun). eauto.
Qed.

(** C6.  When the request raises a timeout or any other network-level
    error, [is_domain_available] returns False and lets nothing escape; in
    [FindNames.py] this holds for every exception of the curl call, and
    for the empty output curl leaves when it reached no server.  Every
    path of the prober ends in a verdict: the function itself under the
    contract of the library, its wrapper always. *)
Theorem C6_network_errors_unavailable (domain : string) (e : exn) :
  is_RequestException e = true ->
  (forall net timeout, net (CheckComOrAi.url domain) = Raise e ->
     result (CheckComOrAi.is_domain_available net domain timeout) = Return false)
  /\ (forall net timeout, net (AiDomains.url domain) = Raise e ->
        result (AiDomains.is_domain_available net domain timeout) = Return false)
  /\ (forall run e',
        run ("https://rdap.verisign.com/com/v1/domain/" +:+ domain) = Raise e' ->
        result (FindNames.is_domain_available run domain) = Return false)
  /\ (forall run,
        run ("https://rdap.verisign.com/com/v1/domain/" +:+ domain) = Return "" ->
        result (FindNames.is_domain_available run domain) = Return false)
  /\ (forall net timeout, library_contract net ->
        (exists b, result (CheckComOrAi.is_domain_available net domain timeout)
                   = Return b)
        /\ (exists b, result (AiDomains.is_domain_available net domain timeout)
                      = Return b))
  /\ (forall run,
        exists b, result (FindNames.is_domain_available run domain) = Return b)
  /\ (forall net run,
        (exists b, result (CheckComOrAi.check_domain net domain) = Return (domain, b))
        /\ (exists b, result (AiDomains.check_domain_wrapper net domain)
                      = Return (domain, b))
        /\ (exists b, result (FindNames.check_domain run domain)
                      = Return (domain +:+ ".com", b))).
Proof.
  intros He. split; [|split; [|split; [|split; [|split; [|split]]]]].
  - intros net timeout Hnet. rewrite (checkcomorai_error _ _ _ _ Hnet He). reflexivity.
  - intros net timeout Hnet.
    destruct (decide (AiDomains.tld domain = "ai")) as [Hai|Hne].
    + rewrite (aidomains_error _ _ _ _ Hai Hnet He). reflexivity.
    + rewrite (aidomains_other_suffix _ _ _ Hne). reflexivity.
  - intros run e' Hrun. rewrite (findnames_error _ _ _ Hrun). reflexivity.
  - intros run Hrun. rewrite (findnames_response _ _ _ Hrun). reflexivity.
  - intros net timeout Hlib. split.
    + apply checkcomorai_total, Hlib.
    + apply aidomains_total, Hlib.
  - intros run. apply findnames_total.
  - intros net run. split; [|split].
    + unfold CheckComOrAi.check_domain.
      destruct (CheckComOrAi.is_domain_available _ _ _) as [[b|e'] t]; eauto.
    + unfold AiDomains.check_domain_wrapper.
      destruct (AiDomains.is_domain_available _ _ _) as [[b|e'] t]; eauto.
    + unfold FindNames.check_domain.
      destruct (FindNames.is_domain_available _ _) as [[b|e'] t]; eauto.
Qed.

Lemma C6_network_errors_unavailable_witness :
  result (CheckComOrAi.is_domain_available (fun _ => Raise Timeout) "soil.dev" 10)
    = Return false
  /\ result (AiDomains.is_domain_available (fun _ => Raise Timeout) "soil.ai" 10)
     = Return false
  /\ result (FindNames.is_domain_available (fun _ => Raise TimeoutExpired) "soil.com")
     = Return false.
Proof.
  destruct (C6_network_errors_unavailable "soil.dev" Timeout eq_refl)
    as (Hcheck & _).
  destruct (C6_network_errors_unavailable "soil.ai" Timeout eq_refl)
    as (_ & Hai & _).
  destruct (C6_network_errors_unavailable "soil.com" Timeout eq_refl)
    as (_ & _ & Hcurl & _).
  split; [|split].
  - apply Hcheck. reflexivity.
  - apply Hai. reflexivity.
  - apply (Hcurl _ TimeoutExpired). reflexivity.
Defined.

(** C7, as amended.  A probe answered with status 429 gives Unavailable
    after one request, without a retry.  In [aidomains.py] the reason is
    written and the prober sleeps a random 0.1 to 0.3 seconds (as it does
    after every answered request).  In [FindNames.py] and
    [checkdomains_curl.py], where 429 is recognised in the first header
    line once 404 and 200 were not found in it, no reason is written and
    the delay is a fixed 2 seconds.  [checkcomorai.py] does neither. *)
Theorem C7_rate_limited (domain : string) :
  (forall net timeout r,
     AiDomains.tld domain = "ai" ->
     net (AiDomains.url domain) = Return r -> status_code r = 429%Z ->
     AiDomains.is_domain_available net domain timeout
     = (Return false,
        [Get (AiDomains.url domain) timeout;
         Sleep (Uniform (1 # 10) (3 # 10));
         Write (RateLimited domain)])
     /\ reason_rate_limited domain
          (trace (AiDomains.is_domain_available net domain timeout))
     /\ delayed_briefly (trace (AiDomains.is_domain_available net domain timeout))
     /\ requests_made (trace (AiDomains.is_domain_available net domain timeout)) = 1%nat)
  /\
  (forall run stdout,
     run ("https://rdap.verisign.com/com/v1/domain/" +:+ domain) = Return stdout ->
     contains "404" (status_line stdout) = false ->
     contains "200" (status_line stdout) = false ->
     contains "429" (status_line stdout) = true ->
     FindNames.is_domain_available run domain
     = (Return false,
        [Curl ("https://rdap.verisign.com/com/v1/domain/" +:+ domain) 5;
         Sleep (Fixed 2)]))
  /\
  (forall run url stdout,
     CheckDomainsCurl.rdap_url domain = Some url -> run url = Return stdout ->
     contains "404" (status_line stdout) = false ->
     contains "200" (status_line stdout) = false ->
     contains "429" (status_line stdout) = true ->
     CheckDomainsCurl.is_domain_available run domain
     = (Return false, [Curl url 10; Sleep (Fixed 2)]))
  /\
  (forall net timeout r,
     net (CheckComOrAi.url domain) = Return r -> status_code r = 429%Z ->
     CheckComOrAi.is_domain_available net domain timeout
     = (Return false, [Get (CheckComOrAi.url domain) timeout])).
Proof.
  split; [|split; [|split]].
  - intros net timeout r Hai Hnet Hs.
    assert (Heq : AiDomains.is_domain_available net domain timeout
                  = (Return false,
                     [Get (AiDomains.url domain) timeout;
                      Sleep (Uniform (1 # 10) (3 # 10));
                      Write (RateLimited domain)])).
    { rewrite (aidomains_response _ _ _ _ Hai Hnet).
      unfold AiDomains.classify. rewrite Hs. reflexivity. }
    rewrite Heq. split; [reflexivity|]. split; [|split; [|reflexivity]].
    + unfold reason_rate_limited. simpl. auto.
    + exists (Uniform (1 # 10) (3 # 10)). split; [simpl; auto|].
      simpl. repeat split; reflexivity || discriminate.
  - intros run stdout Hrun H404 H200 H429.
    rewrite (findnames_response _ _ _ Hrun). cbv zeta.
    rewrite H404, H200, H429. reflexivity.
  - intros run url stdout Hurl Hrun H404 H200 H429.
    rewrite (curl_response _ _ _ _ Hurl Hrun), H404, H200, H429. reflexivity.
  - intros net timeout r Hnet Hs.
    rewrite (checkcomorai_response _ _ _ _ Hnet), Hs. reflexivity.
Qed.

Lemma C7_rate_limited_witness :
  result (AiDomains.is_domain_available (fun _ => Return too_many_requests) "soil.ai" 10)
    = Return false
  /\ FindNames.is_domain_available
       (fun _ => Return "HTTP/1.1 429 Too Many Requests") "soil.com"
     = (Return false,
        [Curl "https://rdap.verisign.com/com/v1/domain/soil.com" 5; Sleep (Fixed 2)])
  /\ trace (CheckDomainsCurl.is_domain_available
              (fun _ => Return "HTTP/2 429 ") "MCPHub.com")
     = [Curl "https://rdap.verisign.com/com/v1/domain/MCPHub.com" 10; Sleep (Fixed 2)]
  /\ trace (CheckComOrAi.is_domain_available
              (fun _ => Return too_many_requests) "soil.zz" 10)
     = [Get "https://rdap.iana.org/domain/soil.zz" 10].
Proof.
  destruct (C7_rate_limited "soil.ai") as (Hai & _).
  destruct (C7_rate_limited "soil.com") as (_ & Hfind & _).
  destruct (C7_rate_limited "MCPHub.com") as (_ & _ & Hcurl & _).
  destruct (C7_rate_limited "soil.zz") as (_ & _ & _ & Hcheck).
  split; [|split; [|split]].
  - destruct (Hai (fun _ => Return too_many_requests) 10%Q too_many_requests
                eq_refl eq_refl eq_refl) as [-> _].
    reflexivity.
  - apply (Hfind _ "HTTP/1.1 429 Too Many Requests"); reflexivity.
  - rewrite (Hcurl (fun _ => Return "HTTP/2 429 ")
               "https://rdap.verisign.com/com/v1/domain/MCPHub.com" "HTTP/2 429 ");
      reflexivity.
  - rewrite (Hcheck (fun _ => Return too_many_requests) 10%Q too_many_requests);
      reflexivity.
Defined.

(** C7 as stated fails on the curl scripts: on a 429 answer [FindNames.py]
    writes no reason, and its only delay is the fixed [time.sleep(2)]. *)
Lemma C7_counterexample :
  FindNames.is_domain_available
    (fun _ => Return "HTTP/1.1 429 Too Many Requests") "soil.com"
  = (Return false,
     [Curl "https://rdap.verisign.com/com/v1/domain/soil.com" 5; Sleep (Fixed 2)])
  /\ ~ reason_rate_limited "soil.com"
        (trace (FindNames.is_domain_available
                  (fun _ => Return "HTTP/1.1 429 Too Many Requests") "soil.com"))
  /\ ~ delayed_briefly
        (trace (FindNames.is_domain_available
                  (fun _ => Return "HTTP/1.1 429 Too Many Requests") "soil.com")).
Proof.
  split; [reflexivity|]. split.
  - intros Hreason. vm_compute in Hreason.
    destruct Hreason as [H|[H|[]]]; discriminate.
  - intros (d & Hin & Hbrief). vm_compute in Hin.
    destruct Hin as [H|[H|[]]]; [discriminate|].
    injection H as <-. exact Hbrief.
Qed.

(** C9.  In the two curl scripts the verdict on the output of curl is
    Available exactly when the first line of that output contains the text
    404: nothing after the first line counts, 404 wins over 200 on the
    same line, the text may sit anywhere in the line, and an empty output
    has the empty first line and gives Unavailable. *)
Theorem C9_curl_first_line (run : curl) (domain stdout : string) :
  (run ("https://rdap.verisign.com/com/v1/domain/" +:+ domain) = Return stdout ->
     result (FindNames.is_domain_available run domain)
     = Return (contains "404" (status_line stdout)))
  /\ (forall url,
        CheckDomainsCurl.rdap_url domain = Some url -> run url = Return stdout ->
        result (CheckDomainsCurl.is_domain_available run domain)
        = Return (contains "404" (status_line stdout)))
  /\ (forall line rest,
        free_of LF line = true -> stdout = line +:+ String LF rest ->
        status_line stdout = line)
  /\ (free_of LF stdout = true -> status_line stdout = stdout)
  /\ (forall pre post,
        status_line stdout = pre +:+ "404" +:+ post ->
        contains "404" (status_line stdout) = true)
  /\ (stdout = "" ->
        status_line stdout = "" /\ contains "404" (status_line stdout) = false).
Proof.
  split; [|split; [|split; [|split; [|split]]]].
  - intros Hrun. rewrite (findnames_response _ _ _ Hrun). cbv zeta.
    destruct (contains "404" _); [reflexivity|].
    destruct (contains "200" _); [reflexivity|].
    destruct (contains "429" _); reflexivity.
  - intros url Hurl Hrun. rewrite (curl_response _ _ _ _ Hurl Hrun).
    destruct (contains "404" _); [reflexivity|].
    destruct (contains "200" _); [reflexivity|].
    destruct (contains "429" _); reflexivity.
  - intros line rest Hfree ->. apply first_split_before, Hfree.
  - intros Hfree. unfold status_line. rewrite split_free by assumption. reflexivity.
  - intros pre post ->. apply contains_app.
  - intros ->. split; reflexivity.
Qed.

Lemma C9_curl_first_line_witness :
  result (FindNames.is_domain_available
            (fun _ => Return "HTTP/1.1 200 OK req-404") "soil.com") = Return true
  /\ result (CheckDomainsCurl.is_domain_available (fun _ => Return "") "soil.ai")
     = Return false
  /\ status_line ("HTTP/2 200 " +:+ String LF "x-request-id: 404") = "HTTP/2 200 ".
Proof.
  split; [|split].
  - destruct (C9_curl_first_line (fun _ => Return "HTTP/1.1 200 OK req-404")
                "soil.com" "HTTP/1.1 200 OK req-404") as (Hfind & _).
    apply Hfind. reflexivity.
  - destruct (C9_curl_first_line (fun _ => Return "") "soil.ai" "")
      as (_ & Hcurl & _).
    apply (Hcurl "https://rdap.whois.ai/rdap/domain/soil.ai"); reflexivity.
  - destruct (C9_curl_first_line (fun _ => Return "") "soil.ai"
                ("HTTP/2 200 " +:+ String LF "x-request-id: 404"))
      as (_ & _ & Hline & _).
    apply (Hline "HTTP/2 200 " "x-request-id: 404"); reflexivity.
Defined.

End status_claims.

(** ** The main loop *)

Section pool_facts.
Import Py Eff.
Variable timeout : Q.
Variable name_of : string -> string.

Lemma step_available st item :
  Pool.available_domains (Pool.step timeout name_of st item)
  = Pool.available_domains st ++ option_list (appended timeout item).
Proof.
  unfold Pool.step, appended.
  destruct (Pool.result (snd item) timeout) as [[domain [|]]|e]; simpl.
  - reflexivity.
  - rewrite app_nil_r. reflexivity.
  - destruct (is_FuturesTimeoutError e); simpl; rewrite app_nil_r; reflexivity.
Qed.

Lemma fold_available completed st :
  Pool.available_domains (fold_left (Pool.step timeout name_of) completed st)
  = Pool.available_domains st ++ omap (appended timeout) completed.
Proof.
  revert st. induction completed as [|item completed IH]; intros st; simpl.
  - rewrite app_nil_r. reflexivity.
  - rewrite IH, step_available, <- app_assoc.
    destruct (appended timeout item); reflexivity.
Qed.

(** The list collected by the loop: the domains of the futures that
    returned True in time, in the order of completion. *)
Lemma collect_available completed :
  Pool.available_domains (Pool.collect timeout name_of completed)
  = omap (appended timeout) completed.
Proof. unfold Pool.collect. rewrite fold_available. reflexivity. Qed.

Lemma collect_Permutation c1 c2 :
  c1 ≡ₚ c2 ->
  Pool.available_domains (Pool.collect timeout name_of c1)
  ≡ₚ Pool.available_domains (Pool.collect timeout name_of c2).
Proof. intros Hperm. rewrite !collect_available, Hperm. reflexivity. Qed.

End pool_facts.

Section pool_claims.
Import Py Eff.

(** C4, as amended.  [aidomains.py] and [checkcomorai.py] sort the
    collected list before the summary and the file, so the list they
    report is in ascending order and is the same for every order in which
    the probes complete.  [FindNames.py] does not sort: it reports the list
    as collected, the same entries in completion order. *)
Theorem C4_sorted_report (c1 c2 : list (string * Pool.future)) :
  c1 ≡ₚ c2 ->
  ( AiDomains.reported c1 = AiDomains.reported c2
    /\ Sorted String.le (AiDomains.reported c1)
    /\ AiDomains.reported c1 ≡ₚ Pool.available_domains (AiDomains.collect c1) )
  /\
  ( CheckComOrAi.reported c1 = CheckComOrAi.reported c2
    /\ Sorted String.le (CheckComOrAi.reported c1)
    /\ CheckComOrAi.reported c1 ≡ₚ Pool.available_domains (CheckComOrAi.collect c1) )
  /\
  ( FindNames.reported c1 = Pool.available_domains (FindNames.collect c1)
    /\ FindNames.reported c1 ≡ₚ FindNames.reported c2 ).
Proof.
  intros Hperm. split; [|split].
  - split; [|split].
    + apply sort_order_independent, collect_Permutation, Hperm.
    + apply sort_Sorted.
    + apply sort_Permutation.
  - split; [|split].
    + apply sort_order_independent, collect_Permutation, Hperm.
    + apply sort_Sorted.
    + apply sort_Permutation.
  - split; [reflexivity|]. apply collect_Permutation, Hperm.
Qed.

Lemma C4_sorted_report_witness :
  AiDomains.reported soil_first = AiDomains.reported acre_first
  /\ FindNames.reported soil_first ≡ₚ FindNames.reported acre_first.
Proof.
  destruct (C4_sorted_report soil_first acre_first (perm_swap _ _ _))
    as ((Hai & _) & _ & (_ & Hfind)).
  split; [exact Hai|exact Hfind].
Defined.

(** C4 as stated fails on [FindNames.py]: the same two available domains
    are reported in one order or the other, as the probes complete, and
    the first of the two reports is not sorted. *)
Lemma C4_counterexample :
  soil_first ≡ₚ acre_first
  /\ FindNames.reported soil_first = ["soil.com"; "acre.com"]
  /\ FindNames.reported acre_first = ["acre.com"; "soil.com"]
  /\ FindNames.reported soil_first <> FindNames.reported acre_first
  /\ FindNames.reported soil_first <> sort (FindNames.reported soil_first).
Proof.
  split; [apply perm_swap|]. split; [reflexivity|]. split; [reflexivity|].
  split; vm_compute; discriminate.
Qed.

Lemma done_result (timeout : Q) (t : Pool.task) :
  (0 <= timeout)%Q -> Pool.result (Pool.done t) timeout = Pool.returns t.
Proof.
  intros Hle. unfold Pool.result, Pool.done. simpl.
  apply Qle_bool_iff in Hle. rewrite Hle. reflexivity.
Qed.

(** What [as_completed] hands over: the futures of the tasks that
    complete, in some order. *)
Lemma as_completed_Permutation (tasks : list (string * Pool.task)) :
  Pool.as_completed tasks ≡ₚ map snd (omap Pool.completion tasks).
Proof.
  unfold Pool.as_completed. apply Permutation_map, merge_sort_Permutation.
Qed.

Lemma as_completed_member (tasks : list (string * Pool.task))
    (item : string * Pool.future) :
  In item (Pool.as_completed tasks) <->
  exists key task t,
    In (key, task) tasks /\ Pool.completes task = Some t
    /\ item = (key, Pool.done task).
Proof.
  rewrite <- list_elem_of_In, as_completed_Permutation, list_elem_of_In, in_map_iff.
  split.
  - intros ([t item'] & <- & Hin).
    apply list_elem_of_In, list_elem_of_omap in Hin as ([key task] & Hin & Hc).
    unfold Pool.completion in Hc. simpl in Hc.
    destruct (Pool.completes task) as [t'|] eqn:Ht; [|discriminate].
    injection Hc as <- <-. exists key, task, t'.
    rewrite <- list_elem_of_In. auto.
  - intros (key & task & t & Hin & Ht & ->).
    exists (t, (key, Pool.done task)). split; [reflexivity|].
    apply list_elem_of_In, list_elem_of_omap. exists (key, task).
    rewrite list_elem_of_In. split; [exact Hin|].
    unfold Pool.completion. simpl. rewrite Ht. reflexivity.
Qed.

Lemma loop_ends_spec (tasks : list (string * Pool.task)) :
  Pool.loop_ends tasks = true <->
  forall item, In item tasks -> is_Some (Pool.completes (snd item)).
Proof.
  unfold Pool.loop_ends. rewrite forallb_forall. split.
  - intros Hall item Hin. specialize (Hall item Hin).
    destruct (Pool.completes (snd item)); [eauto|discriminate].
  - intros Hall item Hin. destruct (Hall item Hin) as [t ->]. reflexivity.
Qed.

Lemma fold_no_timeout_line (timeout : Q) (name_of : string -> string)
    (completed : list (string * Pool.future)) (st : Pool.state) (k : string) :
  Forall (fun item => exists v, Pool.result (snd item) timeout = Return v) completed ->
  ~ In (CheckTimeout k) (Pool.written st) ->
  ~ In (CheckTimeout k)
       (Pool.written (fold_left (Pool.step timeout name_of) completed st)).
Proof.
  intros Hall. revert st.
  induction Hall as [|item completed [[d b] Hres] _ IH]; intros st Hst; [exact Hst|].
  simpl. apply IH. unfold Pool.step. rewrite Hres.
  destruct b; [|exact Hst]. simpl. intros [Hin|[Heq|[]]]%in_app_or.
  - exact (Hst Hin).
  - discriminate.
Qed.

(** C5, on the code.  The timeout of [future.result] is 30, 25 and 20
    seconds, above the timeout of the request (10, 10 and 5 seconds), but
    it is never met: the loop takes its futures from [as_completed], which
    hands a future over only once its call is complete, so that [result]
    returns at once.  A task that says True is appended however long its
    call took, no line about a timeout is written for a call that
    returned, and the loop ends only if every call returns. *)
Theorem C5_slow_task_is_appended (timeout : Q) (name_of : string -> string)
    (future_to_domain : list (string * Pool.task)) :
  (0 <= timeout)%Q ->
  ( (AiDomains.default_timeout < AiDomains.result_timeout)%Q
    /\ (20 <= AiDomains.result_timeout)%Q /\ (AiDomains.result_timeout <= 30)%Q
    /\ (CheckComOrAi.default_timeout < CheckComOrAi.result_timeout)%Q
    /\ (20 <= CheckComOrAi.result_timeout)%Q /\ (CheckComOrAi.result_timeout <= 30)%Q
    /\ (FindNames.curl_timeout < FindNames.result_timeout)%Q
    /\ (20 <= FindNames.result_timeout)%Q /\ (FindNames.result_timeout <= 30)%Q )
  /\
  (forall item,
     In item (Pool.as_completed future_to_domain) ->
     Pool.result (snd item) timeout = Pool.outcome (snd item))
  /\
  (forall key task t domain,
     In (key, task) future_to_domain ->
     Pool.completes task = Some t ->
     Pool.returns task = Return (domain, true) ->
     In domain
        (Pool.available_domains
           (fst (Pool.main_loop timeout name_of future_to_domain))))
  /\
  ((forall item, In item future_to_domain ->
      exists v, Pool.returns (snd item) = Return v) ->
   forall k,
     ~ In (CheckTimeout k)
          (Pool.written (fst (Pool.main_loop timeout name_of future_to_domain))))
  /\
  (snd (Pool.main_loop timeout name_of future_to_domain) = true <->
     forall item, In item future_to_domain ->
       is_Some (Pool.completes (snd item))).
Proof.
  intros Hle. split; [|split; [|split; [|split]]].
  - repeat split; vm_compute; congruence.
  - intros item (key & task & t & _ & _ & ->)%as_completed_member.
    simpl. apply done_result, Hle.
  - intros key task t domain Hin Ht Hret. unfold Pool.main_loop. simpl.
    rewrite collect_available. apply list_elem_of_In, list_elem_of_omap.
    exists (key, Pool.done task). split.
    + apply list_elem_of_In, as_completed_member. exists key, task, t. auto.
    + unfold appended. simpl snd. rewrite (done_result _ _ Hle), Hret. reflexivity.
  - intros Hret k. unfold Pool.main_loop, Pool.collect. simpl.
    apply fold_no_timeout_line; [|intros []].
    apply Forall_forall. intros item Hin.
    apply list_elem_of_In, as_completed_member in Hin
      as (key & task & t & Hin & _ & ->).
    simpl. rewrite (done_result _ _ Hle). exact (Hret (key, task) Hin).
  - apply loop_ends_spec.
Qed.

Lemma C5_slow_task_is_appended_witness :
  AiDomains.main_loop with_a_slow_task
  = ({| Pool.available_domains := ["soil.ai"; "acre.ai"; "late.ai"];
        Pool.written := [Available "soil.ai"; Available "acre.ai";
                         Available "late.ai"] |}, true)
  /\ In "late.ai" (Pool.available_domains (fst (AiDomains.main_loop with_a_slow_task)))
  /\ ~ In (CheckTimeout "late.ai")
          (Pool.written (fst (AiDomains.main_loop with_a_slow_task)))
  /\ snd (AiDomains.main_loop with_a_hung_task) = false.
Proof.
  destruct (C5_slow_task_is_appended AiDomains.result_timeout id with_a_slow_task)
    as (_ & _ & Happend & Hquiet & _); [discriminate|].
  split; [vm_compute; reflexivity|]. split; [|split].
  - apply (Happend "late.ai" (finds "late.ai" 31) 31%Q "late.ai");
      [simpl; auto|reflexivity|reflexivity].
  - apply Hquiet. intros item Hin. simpl in Hin.
    destruct Hin as [<-|[<-|[<-|[]]]]; eexists; reflexivity.
  - destruct (C5_slow_task_is_appended AiDomains.result_timeout id with_a_hung_task)
      as (_ & _ & _ & _ & Hends); [discriminate|].
    destruct (snd (AiDomains.main_loop with_a_hung_task)) eqn:E; [|reflexivity].
    exfalso. destruct (proj1 Hends E ("hung.ai", hangs "hung.ai")) as [t Ht].
    + simpl. auto.
    + discriminate Ht.
Defined.

End pool_claims.

(** ** The report of FindNames.py *)

Section report.
Import Py.

Lemma append_assoc (a b c : string) : (a +:+ b) +:+ c = a +:+ b +:+ c.
Proof.
  induction a as [|x a IH]; [reflexivity|].
  change (String x ((a +:+ b) +:+ c) = String x (a +:+ b +:+ c)).
  rewrite IH. reflexivity.
Qed.

Lemma length_append (a b : string) :
  String.length (a +:+ b) = (String.length a + String.length b)%nat.
Proof.
  induction a as [|x a IH]; [reflexivity|].
  change (S (String.length (a +:+ b)) = S (String.length a + String.length b)).
  rewrite IH. reflexivity.
Qed.

(** Two strings with the same ending appended are the same string. *)
Lemma append_inj_l (t a b : string) : a +:+ t = b +:+ t -> a = b.
Proof.
  revert b. induction a as [|x a IH]; intros [|y b] Heq.
  - reflexivity.
  - apply (f_equal String.length) in Heq.
    rewrite !length_append in Heq. simpl in Heq. lia.
  - apply (f_equal String.length) in Heq.
    rewrite !length_append in Heq. simpl in Heq. lia.
  - change (String x (a +:+ t) = String y (b +:+ t)) in Heq.
    injection Heq as -> Heq. rewrite (IH _ Heq). reflexivity.
Qed.

Lemma append_inj_r (t a b : string) : t +:+ a = t +:+ b -> a = b.
Proof.
  induction t as [|x t IH]; intros Heq; [exact Heq|].
  change (String x (t +:+ a) = String x (t +:+ b)) in Heq.
  injection Heq as Heq. exact (IH Heq).
Qed.

Lemma count_occ_map_inj (f : string -> string) (l : list string) (x : string) :
  (forall a b, f a = f b -> a = b) ->
  count_occ string_dec (map f l) (f x) = count_occ string_dec l x.
Proof.
  intros Hinj. induction l as [|y l IH]; [reflexivity|]. simpl.
  destruct (string_dec (f y) (f x)) as [Heq|Hne], (string_dec y x) as [Heq'|Hne'].
  - rewrite IH. reflexivity.
  - apply Hinj in Heq. contradiction.
  - subst. contradiction.
  - exact IH.
Qed.

(** The loop over [available_domains] at the end of the script writes each
    entry twice. *)
Lemma count_occ_written_twice (l : list string) (x : string) :
  count_occ string_dec
    (flat_map (fun domain => [domain +:+ FindNames.nl; domain +:+ FindNames.nl]) l)
    (x +:+ FindNames.nl)
  = (2 * count_occ string_dec l x)%nat.
Proof.
  induction l as [|y l IH]; [reflexivity|]. simpl flat_map. simpl count_occ.
  destruct (string_dec (y +:+ FindNames.nl) (x +:+ FindNames.nl)) as [Heq|Hne],
           (string_dec y x) as [Heq'|Hne'].
  - rewrite IH. lia.
  - apply append_inj_l in Heq. contradiction.
  - subst. contradiction.
  - exact IH.
Qed.

Lemma concat_cons (x : string) (l : list string) :
  String.concat "" (x :: l) = x +:+ String.concat "" l.
Proof. destruct l; simpl; [rewrite append_empty_r|]; reflexivity. Qed.

Lemma concat_app (l1 l2 : list string) :
  String.concat "" (l1 ++ l2) = String.concat "" l1 +:+ String.concat "" l2.
Proof.
  induction l1 as [|x l1 IH]; [reflexivity|].
  change ((x :: l1) ++ l2) with (x :: (l1 ++ l2)).
  rewrite !concat_cons, IH, append_assoc. reflexivity.
Qed.

(** The lines of the listing: every domain twice, and the empty piece after
    the last newline. *)
Lemma listing_lines (l : list string) :
  Forall (fun domain => free_of LF domain = true) l ->
  split LF (String.concat ""
              (flat_map (fun domain => [domain +:+ FindNames.nl; domain +:+ FindNames.nl]) l))
  = flat_map (fun domain => [domain; domain]) l ++ [""].
Proof.
  induction 1 as [|y l Hy Hl IH]; [reflexivity|].
  simpl flat_map. rewrite !concat_cons. unfold FindNames.nl at 1 2.
  rewrite !append_assoc.
  change (String LF "" +:+ ?s) with (String LF s).
  rewrite split_app, (split_free _ _ Hy).
  change (String LF "" +:+ ?s) with (String LF s).
  rewrite split_app, (split_free _ _ Hy), IH. reflexivity.
Qed.

End report.

Section report_claims.
Import Py.

(** C8.  In [FindNames.py] the writes to [available_domains.txt] that
    follow the three header writes hold the line of every collected domain
    twice as often as the domain is in the list, while the summary on the
    console holds its line once per entry; read as text, the listing in
    the file is every domain on two lines in a row. *)
Theorem C8_file_twice_console_once
    (available_domains words_to_check : list string) (domain : string) :
  count_occ string_dec
    (drop 3 (FindNames.file_writes available_domains words_to_check))
    (domain +:+ FindNames.nl)
  = (2 * count_occ string_dec available_domains domain)%nat
  /\
  count_occ string_dec
    (FindNames.console available_domains words_to_check) ("- " +:+ domain)
  = count_occ string_dec available_domains domain
  /\
  (Forall (fun domain => free_of LF domain = true) available_domains ->
   exists listing,
     FindNames.file_text available_domains words_to_check
     = String.concat "" (take 3 (FindNames.file_writes available_domains words_to_check))
       +:+ listing
     /\ split LF listing
        = flat_map (fun domain => [domain; domain]) available_domains ++ [""]).
Proof.
  split; [|split].
  - unfold FindNames.file_writes. simpl drop. apply count_occ_written_twice.
  - unfold FindNames.console. rewrite !count_occ_app.
    rewrite (count_occ_map_inj (fun domain => "- " +:+ domain))
      by (intros a b; apply append_inj_r).
    simpl count_occ.
    repeat match goal with
    | |- context [string_dec ?a ?b] =>
        destruct (string_dec a b) as [Heq|_]; [discriminate Heq|]
    end.
    lia.
  - intros Hfree.
    exists (String.concat ""
              (flat_map (fun domain => [domain +:+ FindNames.nl; domain +:+ FindNames.nl])
                        available_domains)).
    split; [|apply listing_lines, Hfree].
    unfold FindNames.file_text, FindNames.file_writes.
    rewrite concat_app. reflexivity.
Qed.

Lemma C8_file_twice_console_once_witness :
  count_occ string_dec
    (drop 3 (FindNames.file_writes ["soil.com"; "acre.com"] ["soil"; "acre"; "loam"]))
    ("soil.com" +:+ FindNames.nl) = 2%nat
  /\ count_occ string_dec
       (FindNames.console ["soil.com"; "acre.com"] ["soil"; "acre"; "loam"])
       "- soil.com" = 1%nat
  /\ exists listing,
       FindNames.file_text ["soil.com"; "acre.com"] ["soil"; "acre"; "loam"]
       = String.concat ""
           (take 3 (FindNames.file_writes ["soil.com"; "acre.com"]
                      ["soil"; "acre"; "loam"])) +:+ listing
       /\ split LF listing = ["soil.com"; "soil.com"; "acre.com"; "acre.com"; ""].
Proof.
  destruct (C8_file_twice_console_once ["soil.com"; "acre.com"]
              ["soil"; "acre"; "loam"] "soil.com") as (Hfile & Hconsole & Htext).
  split; [exact Hfile|]. split; [exact Hconsole|].
  apply Htext. repeat constructor.
Defined.

End report_claims.

(** ** The candidates of aidomains.py *)

Section candidates.
Import Py.

Lemma load_words_spec (lines : list string) (word : string) :
  In word (elements (AiDomains.load_words lines)) <->
  isalpha word = true /\ exists line, In line lines /\ word = lower (strip line).
Proof.
  rewrite <- list_elem_of_In, elem_of_elements. unfold AiDomains.load_words.
  rewrite elem_of_list_to_set, list_elem_of_filter, list_elem_of_In, in_map_iff.
  split; intros [Halpha (line & H1 & H2)]; (split; [exact Halpha|]);
    exists line; auto.
Qed.

Lemma filtered_words_spec (all_words : list string) (word : string) :
  In word (AiDomains.filtered_words all_words) <->
  In word all_words /\ String.length word = 4%nat.
Proof.
  unfold AiDomains.filtered_words.
  rewrite <- !list_elem_of_In, list_elem_of_filter. intuition.
Qed.

Lemma domains_to_check_spec (all_words : list string) (candidate : string) :
  In candidate (AiDomains.domains_to_check all_words) <->
  exists word,
    In word all_words /\ String.length word = 4%nat /\ candidate = word +:+ ".ai".
Proof.
  unfold AiDomains.domains_to_check. rewrite in_map_iff. split.
  - intros (word & <- & Hin). apply filtered_words_spec in Hin as [Hin Hlen].
    exists word. auto.
  - intros (word & Hin & Hlen & ->). exists word. split; [reflexivity|].
    apply filtered_words_spec. auto.
Qed.

(** C10.  The candidates of [aidomains.py] are the words of length 4 with
    [.ai] appended, and no other: a word of 5 or 6 letters gives no
    candidate.  Over a dictionary they are the alphabetic, lower-cased
    words of length 4 of the file.  The lines [main] prints about the
    selection speak of 5 or 6 letters all the same. *)
Theorem C10_four_letter_candidates
    (all_words lines : list string) (workers : nat) (candidate : string) :
  (In candidate (AiDomains.domains_to_check all_words) <->
     exists word,
       In word all_words /\ String.length word = 4%nat
       /\ candidate = word +:+ ".ai")
  /\
  (forall word,
     In word all_words ->
     String.length word = 5%nat \/ String.length word = 6%nat ->
     ~ In word (AiDomains.filtered_words all_words))
  /\
  (forall domains,
     snd (AiDomains.main_candidates (Some lines) workers) = Some domains ->
     (In candidate domains <->
        exists word,
          (isalpha word = true /\ exists line, In line lines /\ word = lower (strip line))
          /\ String.length word = 4%nat
          /\ candidate = word +:+ ".ai"))
  /\
  (exists loaded rest,
     fst (AiDomains.main_candidates (Some lines) workers)
     = loaded
       :: ("Found "
             +:+ pretty (length (AiDomains.filtered_words
                                   (elements (AiDomains.load_words lines))))
             +:+ " words with 5 or 6 letters.")
       :: rest).
Proof.
  split; [apply domains_to_check_spec|]. split; [|split].
  - intros word _ Hlen Hin. apply filtered_words_spec in Hin as [_ H4]. lia.
  - intros domains Hmain. unfold AiDomains.main_candidates in Hmain.
    destruct (AiDomains.filtered_words (elements (AiDomains.load_words lines)));
      simpl in Hmain; [discriminate|].
    injection Hmain as <-. rewrite domains_to_check_spec.
    split; intros (word & Hin & Hlen & Hcand); exists word;
      (split; [apply load_words_spec; exact Hin|auto]).
  - unfold AiDomains.main_candidates.
    destruct (AiDomains.filtered_words (elements (AiDomains.load_words lines)))
      eqn:E; simpl; eexists _, _; reflexivity.
Qed.

Lemma C10_four_letter_candidates_witness :
  In "soil.ai" (AiDomains.domains_to_check ["apple"; "soil"; "banana"])
  /\ ~ In "apple" (AiDomains.filtered_words ["apple"; "soil"; "banana"])
  /\ AiDomains.domains_to_check ["apple"; "soil"; "banana"] = ["soil.ai"]
  /\ (In "apple.ai" ["soil.ai"; "acre.ai"] <->
        exists word,
          (isalpha word = true
           /\ exists line, In line small_dictionary /\ word = lower (strip line))
          /\ String.length word = 4%nat
          /\ "apple.ai" = word +:+ ".ai").
Proof.
  destruct (C10_four_letter_candidates ["apple"; "soil"; "banana"] [] 10 "soil.ai")
    as (Hcand & Hdrop & _).
  destruct (C10_four_letter_candidates [] small_dictionary 10 "apple.ai")
    as (_ & _ & Hmain & _).
  split; [|split; [|split]].
  - apply Hcand. exists "soil". split; [simpl; auto|]. split; reflexivity.
  - apply Hdrop; [simpl; auto|]. left. reflexivity.
  - reflexivity.
  - apply Hmain. vm_compute. reflexivity.
Defined.

End candidates.

(** ** Checks on concrete inputs *)

Section checks.
Import Py Eff Requests.

Example split_last_label : last (split "." "try.soil.Dev") = "Dev".
Proof. reflexivity. Qed.

Example split_empty : split "." "" = [""].
Proof. reflexivity. Qed.

Example float_code_matches : Json.eq_int (Json.Float float_400) 400 = true.
Proof. reflexivity. Qed.

Example string_code_does_not_match : Json.eq_int (Json.Str "404") 404 = false.
Proof. reflexivity. Qed.

Example float_code_available :
  result (CheckComOrAi.is_domain_available
            (fun _ => Return (ok_with (Return (Json.Object
               {[ "errorCode" := Json.Float float_400 ]})))) "soil.ai" 10)
  = Return true.
Proof. vm_compute. reflexivity. Qed.

Example checkcomorai_candidates :
  CheckComOrAi.domains_to_check ["soil"]
  = ["soil.com"; "soil.ai"; "soil.dev"; "trysoil.com"; "trysoil.ai"; "trysoil.dev";
     "getsoil.com"; "getsoil.ai"; "getsoil.dev"; "usesoil.com"; "usesoil.ai";
     "usesoil.dev"; "mysoil.com"; "mysoil.ai"; "mysoil.dev"; "thesoil.com";
     "thesoil.ai"; "thesoil.dev"].
Proof. reflexivity. Qed.

Example aidomains_dictionary :
  exists domains,
    snd (AiDomains.main_candidates (Some small_dictionary) 10) = Some domains
    /\ domains ≡ₚ ["acre.ai"; "soil.ai"].
Proof. eexists. split; [vm_compute; reflexivity|]. apply perm_swap. Qed.

Example aidomains_unexpected_status :
  AiDomains.is_domain_available
    (fun _ => Return {| status_code := 503; json := Raise ValueError |}) "soil.ai" 10
  = (Return false,
     [Get "https://rdap.identitydigital.services/rdap/domain/soil.ai" 10;
      Sleep (Uniform (1 # 10) (3 # 10));
      Write (UnexpectedStatus 503 "soil.ai")]).
Proof. reflexivity. Qed.

Example sorted_report :
  AiDomains.reported soil_first = ["acre.com"; "soil.com"].
Proof. vm_compute. reflexivity. Qed.

Example aidomains_run :
  AiDomains.reported
    (AiDomains.future_to_domain (fun _ => Return not_found)
       ["soil.ai"; "acre.ai"; "loam.com"])
  = ["acre.ai"; "soil.ai"].
Proof. vm_compute. reflexivity. Qed.

Example findnames_run :
  FindNames.reported
    (FindNames.future_to_domain (fun _ => Return "HTTP/2 404 ") ["soil"; "acre"])
  = ["soil.com"; "acre.com"].
Proof. vm_compute. reflexivity. Qed.

End checks.

(** * Further properties of the scripts *)

(** ** Lower case *)

Section lower_facts.
Import Py.

Lemma lower_char_idem c : lower_char (lower_char c) = lower_char c.
Proof. destruct c as [[] [] [] [] [] [] [] []]; reflexivity. Qed.

Lemma lower_idem s : lower (lower s) = lower s.
Proof.
  induction s as [|c s IH]; [reflexivity|]. simpl.
  rewrite lower_char_idem, IH. reflexivity.
Qed.

Lemma length_lower s : String.length (lower s) = String.length s.
Proof. induction s as [|c s IH]; [reflexivity|]. simpl. rewrite IH. reflexivity. Qed.

Lemma lower_app a b : lower (a +:+ b) = lower a +:+ lower b.
Proof.
  induction a as [|c a IH]; [reflexivity|].
  change (String (lower_char c) (lower (a +:+ b))
          = String (lower_char c) (lower a +:+ lower b)).
  rewrite IH. reflexivity.
Qed.

Lemma lower_empty s : lower s = "" <-> s = "".
Proof. destruct s; simpl; split; intros H; (reflexivity || discriminate). Qed.

End lower_facts.

(** ** The candidates of checkcomorai.py *)

Section checkcomorai_candidates.
Import Py Eff Requests.

Lemma domains_of_name_spec name c :
  In c (CheckComOrAi.domains_of_name name) <->
  lower (strip name) <> ""
  /\ exists prefix t,
       In prefix CheckComOrAi.prefixes /\ In t CheckComOrAi.tlds
       /\ c = prefix +:+ lower (strip name) +:+ "." +:+ t.
Proof.
  unfold CheckComOrAi.domains_of_name.
  destruct (String.eqb_spec (lower (strip name)) "") as [Hempty|Hne].
  - split; [intros []|intros [Hne _]; contradiction].
  - rewrite in_flat_map. split.
    + intros (prefix & Hp & Hin). apply in_map_iff in Hin as (t & <- & Ht).
      split; [exact Hne|]. exists prefix, t. auto.
    + intros (_ & prefix & t & Hp & Ht & ->). exists prefix. split; [exact Hp|].
      apply in_map_iff. exists t. auto.
Qed.

Lemma domains_to_check_members names c :
  In c (CheckComOrAi.domains_to_check names) <->
  exists name prefix t,
    In name names /\ lower (strip name) <> ""
    /\ In prefix CheckComOrAi.prefixes /\ In t CheckComOrAi.tlds
    /\ c = prefix +:+ lower (strip name) +:+ "." +:+ t.
Proof.
  unfold CheckComOrAi.domains_to_check. rewrite in_flat_map. split.
  - intros (name & Hname & Hin).
    destruct (String.eqb_spec name "") as [->|_]; [destruct Hin|].
    apply domains_of_name_spec in Hin as (Hne & prefix & t & Hp & Ht & ->).
    exists name, prefix, t. auto.
  - intros (name & prefix & t & Hname & Hne & Hp & Ht & ->).
    exists name. split; [exact Hname|].
    destruct (String.eqb_spec name "") as [->|_]; [exfalso; apply Hne; reflexivity|].
    apply domains_of_name_spec. split; [exact Hne|]. exists prefix, t. auto.
Qed.

Lemma candidate_tld prefix cleaned t :
  In t CheckComOrAi.tlds ->
  CheckComOrAi.tld (prefix +:+ cleaned +:+ "." +:+ t) = t.
Proof.
  intros Ht. unfold CheckComOrAi.tld.
  rewrite <- append_assoc.
  change ((prefix +:+ cleaned) +:+ "." +:+ t)
    with ((prefix +:+ cleaned) +:+ String "." t).
  simpl in Ht. destruct Ht as [<-|[<-|[<-|[]]]];
    rewrite last_split_after by reflexivity; reflexivity.
Qed.

(** X1.  Every candidate that [checkcomorai.py] generates ends in one of
    its three suffixes, so the resolver finds a template of its own table
    for it: no generated candidate is sent to the IANA bootstrap. *)
Theorem X1_candidates_have_own_endpoint (base_names_to_check : list string)
    (candidate : string) :
  In candidate (CheckComOrAi.domains_to_check base_names_to_check) ->
  In (CheckComOrAi.tld candidate) CheckComOrAi.tlds
  /\ (exists template,
        CheckComOrAi.RDAP_ENDPOINTS !! CheckComOrAi.tld candidate = Some template
        /\ CheckComOrAi.url candidate = format template candidate)
  /\ CheckComOrAi.url candidate <> "https://rdap.iana.org/domain/" +:+ candidate.
Proof.
  intros Hin.
  apply domains_to_check_members in Hin
    as (name & prefix & t & _ & _ & _ & Ht & ->).
  rewrite (candidate_tld _ _ _ Ht). split; [exact Ht|].
  assert (Hkey : is_Some (CheckComOrAi.RDAP_ENDPOINTS !! t)).
  { apply endpoints_keys. simpl in Ht. intuition. }
  split.
  - destruct Hkey as [template Hkey]. exists template. split; [exact Hkey|].
    unfold CheckComOrAi.url. rewrite (candidate_tld _ _ _ Ht), Hkey. reflexivity.
  - rewrite checkcomorai_url, (candidate_tld _ _ _ Ht).
    simpl in Ht. destruct Ht as [<-|[<-|[<-|[]]]]; simpl;
      intros Heq%append_inj_l; discriminate.
Qed.

Lemma X1_candidates_have_own_endpoint_witness :
  CheckComOrAi.url "trysoil.dev" <> "https://rdap.iana.org/domain/" +:+ "trysoil.dev".
Proof.
  apply (X1_candidates_have_own_endpoint [" Soil "] "trysoil.dev").
  vm_compute. auto 10.
Defined.

(** X2.  [checkcomorai.py] makes 18 candidates (6 prefixes, 3 suffixes) for
    every base name that is not blank, and none for a name that is empty
    or all white space. *)
Theorem X2_candidates_count (base_names_to_check : list string) :
  length (CheckComOrAi.domains_to_check base_names_to_check)
  = (18 * length (filter (fun name => strip name <> "") base_names_to_check))%nat.
Proof.
  unfold CheckComOrAi.domains_to_check.
  induction base_names_to_check as [|name names IH]; [reflexivity|].
  simpl flat_map. rewrite length_app, IH, filter_cons.
  assert (Hlen : length (if (name =? "")%string then []
                         else CheckComOrAi.domains_of_name name)
                 = if decide (strip name <> "") then 18%nat else 0%nat).
  { destruct (String.eqb_spec name "") as [->|Hname].
    - rewrite decide_False; [reflexivity|]. intros H. apply H. reflexivity.
    - unfold CheckComOrAi.domains_of_name.
      destruct (String.eqb_spec (lower (strip name)) "") as [He|He].
      + apply (proj1 (lower_empty _)) in He. rewrite decide_False; [reflexivity|].
        intros H. apply H, He.
      + rewrite decide_True; [reflexivity|]. intros H. apply He, lower_empty, H. }
  rewrite Hlen. destruct (decide (strip name <> "")); simpl; lia.
Qed.

(** X3.  The candidates of [checkcomorai.py] are in lower case, whatever
    the case of the base names. *)
Theorem X3_candidates_lower_case (base_names_to_check : list string)
    (candidate : string) :
  In candidate (CheckComOrAi.domains_to_check base_names_to_check) ->
  lower candidate = candidate.
Proof.
  intros Hin.
  apply domains_to_check_members in Hin
    as (name & prefix & t & _ & _ & Hp & Ht & ->).
  rewrite !lower_app, lower_idem.
  assert (Hprefix : lower prefix = prefix).
  { simpl in Hp. destruct Hp as [<-|[<-|[<-|[<-|[<-|[<-|[]]]]]]]; reflexivity. }
  assert (Htld : lower t = t).
  { simpl in Ht. destruct Ht as [<-|[<-|[<-|[]]]]; reflexivity. }
  rewrite Hprefix, Htld. reflexivity.
Qed.

Lemma X3_candidates_lower_case_witness : lower "mysoil.ai" = "mysoil.ai".
Proof.
  apply (X3_candidates_lower_case ["SOIL"] "mysoil.ai"). vm_compute. auto 20.
Defined.

End checkcomorai_candidates.

(** ** The dictionary and the candidates of aidomains.py *)

Section aidomains_candidates.
Import Py Eff Requests.

Lemma ai_candidate_tld word : AiDomains.tld (word +:+ ".ai") = "ai".
Proof.
  unfold AiDomains.tld. change (word +:+ ".ai") with (word +:+ String "." "ai").
  rewrite last_split_after by reflexivity. reflexivity.
Qed.

(** X4.  Every candidate [aidomains.py] builds passes the suffix test of
    its own [is_domain_available], whatever the word: the request for it
    is made, to the Identity Digital endpoint. *)
Theorem X4_ai_candidates_are_probed (all_words : list string) (candidate : string) :
  In candidate (AiDomains.domains_to_check all_words) ->
  AiDomains.tld candidate = "ai"
  /\ forall net timeout, exists rest,
       trace (AiDomains.is_domain_available net candidate timeout)
       = Get ("https://rdap.identitydigital.services/rdap/domain/" +:+ candidate)
             timeout :: rest.
Proof.
  intros Hin. apply domains_to_check_spec in Hin as (word & _ & _ & ->).
  split; [apply ai_candidate_tld|]. intros net timeout.
  rewrite <- aidomains_url. apply aidomains_requests_url, ai_candidate_tld.
Qed.

Lemma X4_ai_candidates_are_probed_witness :
  AiDomains.tld "a.b!.ai" = "ai".
Proof.
  apply (X4_ai_candidates_are_probed ["apple"; "a.b!"] "a.b!.ai").
  vm_compute. auto.
Defined.

Lemma load_words_lower lines word :
  In word (elements (AiDomains.load_words lines)) -> lower word = word.
Proof.
  intros Hin. apply load_words_spec in Hin as (_ & line & _ & ->).
  apply lower_idem.
Qed.

(** X5.  [load_words] gives every word once and in lower case, and never
    more words than the file has lines. *)
Theorem X5_load_words_invariants (lines : list string) :
  NoDup (elements (AiDomains.load_words lines))
  /\ (forall word, In word (elements (AiDomains.load_words lines)) ->
        lower word = word)
  /\ (length (elements (AiDomains.load_words lines)) <= length lines)%nat.
Proof.
  split; [apply NoDup_elements|]. split.
  - apply load_words_lower.
  - rewrite <- (length_map (fun line => lower (strip line)) lines).
    apply NoDup_incl_length; [apply NoDup_ListNoDup, NoDup_elements|].
    intros word Hin. apply load_words_spec in Hin as (_ & line & Hline & ->).
    apply (in_map (fun line => lower (strip line))), Hline.
Qed.

Lemma X5_load_words_invariants_witness : lower "soil" = "soil".
Proof.
  destruct (X5_load_words_invariants small_dictionary) as (_ & Hlower & _).
  apply Hlower. vm_compute. auto.
Defined.

Lemma ai_candidates_NoDup (all_words : list string) :
  NoDup all_words -> NoDup (AiDomains.domains_to_check all_words).
Proof.
  intros Hnd. unfold AiDomains.domains_to_check, AiDomains.filtered_words.
  assert (Hinj : Inj (=) (=) (fun word : string => word +:+ ".ai")).
  { intros a b Heq. apply (append_inj_l ".ai"), Heq. }
  apply (NoDup_fmap_2 (fun word : string => word +:+ ".ai")), NoDup_filter, Hnd.
Qed.

(** X6.  When [main] goes on to the pool, its candidate list is not empty
    and has no candidate twice; every candidate is seven characters long,
    in lower case, and ends in [.ai]. *)
Theorem X6_main_candidates_invariants (lines : list string) (workers : nat)
    (domains : list string) :
  snd (AiDomains.main_candidates (Some lines) workers) = Some domains ->
  domains <> []
  /\ NoDup domains
  /\ forall candidate, In candidate domains ->
       String.length candidate = 7%nat
       /\ lower candidate = candidate
       /\ AiDomains.tld candidate = "ai".
Proof.
  unfold AiDomains.main_candidates.
  destruct (AiDomains.filtered_words (elements (AiDomains.load_words lines)))
    as [|w ws] eqn:E; simpl; [discriminate|].
  intros [= <-]. split; [|split].
  - unfold AiDomains.domains_to_check. rewrite E. discriminate.
  - apply ai_candidates_NoDup, NoDup_elements.
  - intros candidate Hin.
    apply domains_to_check_spec in Hin as (word & Hword & Hlen & ->).
    split; [rewrite length_append, Hlen; reflexivity|].
    split; [|apply ai_candidate_tld].
    rewrite lower_app. f_equal. apply (load_words_lower lines), Hword.
Qed.

Lemma X6_main_candidates_invariants_witness :
  ["soil.ai"; "acre.ai"] <> []
  /\ NoDup ["soil.ai"; "acre.ai"]
  /\ forall candidate, In candidate ["soil.ai"; "acre.ai"] ->
       String.length candidate = 7%nat
       /\ lower candidate = candidate
       /\ AiDomains.tld candidate = "ai".
Proof.
  apply (X6_main_candidates_invariants small_dictionary 10). vm_compute. reflexivity.
Defined.

Lemma no_filtered_words lines :
  AiDomains.filtered_words (elements (AiDomains.load_words lines)) = [] <->
  forall line, In line lines ->
    ~ (isalpha (lower (strip line)) = true
       /\ String.length (lower (strip line)) = 4%nat).
Proof.
  split.
  - intros Hnil line Hline [Halpha Hlen].
    assert (Hin : In (lower (strip line))
                     (AiDomains.filtered_words (elements (AiDomains.load_words lines)))).
    { apply filtered_words_spec. split; [|exact Hlen].
      apply load_words_spec. split; [exact Halpha|]. exists line. auto. }
    rewrite Hnil in Hin. destruct Hin.
  - intros Hnone.
    destruct (AiDomains.filtered_words (elements (AiDomains.load_words lines)))
      as [|w ws] eqn:E; [reflexivity|].
    assert (Hin : In w (AiDomains.filtered_words
                          (elements (AiDomains.load_words lines))))
      by (rewrite E; left; reflexivity).
    apply filtered_words_spec in Hin as [Hin Hlen].
    apply load_words_spec in Hin as (Halpha & line & Hline & ->).
    destruct (Hnone line Hline). auto.
Qed.

Lemma main_candidates_snd lines workers :
  snd (AiDomains.main_candidates (Some lines) workers)
  = match AiDomains.filtered_words (elements (AiDomains.load_words lines)) with
    | [] => None
    | _ => Some (AiDomains.domains_to_check (elements (AiDomains.load_words lines)))
    end.
Proof.
  unfold AiDomains.main_candidates.
  destruct (AiDomains.filtered_words (elements (AiDomains.load_words lines)));
    reflexivity.
Qed.

(** X7.  Up to the line before the pool is made, [main] of
    [aidomains.py] ends early in these ways and no other.  It returns
    after the error line of [load_words] when the dictionary is not found
    or its reading fails with another IOError.  An exception of the
    reading that [load_words] does not catch, such as the
    UnicodeDecodeError of a line that does not decode, escapes [main].  It
    returns after the line about no 5 or 6 letter words when no line of
    the dictionary is, once stripped and lower-cased, an alphabetic word of
    length 4.  In every other case it goes on with the candidates. *)
Theorem X7_main_early_exit (dictionary : string)
    (file : AiDomains.dictionary_file) (workers : nat) :
  (snd (AiDomains.main_start dictionary file workers) = Return None <->
     file = AiDomains.NotFound
     \/ (exists e, file = AiDomains.IOFailure e)
     \/ exists lines,
          file = AiDomains.Readable lines
          /\ forall line, In line lines ->
               ~ (isalpha (lower (strip line)) = true
                  /\ String.length (lower (strip line)) = 4%nat))
  /\ (forall e,
        snd (AiDomains.main_start dictionary file workers) = Raise e <->
        file = AiDomains.OtherFailure e)
  /\ (forall domains,
        snd (AiDomains.main_start dictionary file workers) = Return (Some domains) <->
        exists lines,
          file = AiDomains.Readable lines
          /\ snd (AiDomains.main_candidates (Some lines) workers) = Some domains)
  /\ (file = AiDomains.NotFound ->
        fst (AiDomains.main_start dictionary file workers)
        = ["Loading words from: " +:+ dictionary;
           "Error: Dictionary file not found at " +:+ dictionary])
  /\ (forall lines,
        file = AiDomains.Readable lines ->
        snd (AiDomains.main_start dictionary file workers) = Return None ->
        last (fst (AiDomains.main_start dictionary file workers))
        = "No 5 or 6 letter words found in the dictionary. Exiting.").
Proof.
  destruct file as [lines| |msg|e0];
    unfold AiDomains.main_start, AiDomains.load_words_file.
  - pose proof (no_filtered_words lines) as Hnone.
    pose proof (main_candidates_snd lines workers) as Hsnd.
    destruct (AiDomains.filtered_words (elements (AiDomains.load_words lines)))
      as [|w ws]; cbn [fst snd].
    + split; [|split; [|split; [|split]]].
      * split; [|reflexivity]. intros _. right. right. exists lines.
        split; [reflexivity|]. apply Hnone. reflexivity.
      * intros e. split; [discriminate|intros [=]].
      * intros domains. split; [discriminate|].
        intros (lines' & [= <-] & Hsome). rewrite Hsnd in Hsome. discriminate.
      * intros [=].
      * intros lines' _ _. reflexivity.
    + split; [|split; [|split; [|split]]].
      * split; [discriminate|].
        intros [[=]|[[msg [=]]|(lines' & [= <-] & Hno)]].
        apply Hnone in Hno. discriminate.
      * intros e. split; [discriminate|intros [=]].
      * intros domains. split.
        -- intros [= <-]. exists lines. split; [reflexivity|exact Hsnd].
        -- intros (lines' & [= <-] & Hsome). rewrite Hsnd in Hsome.
           injection Hsome as <-. reflexivity.
      * intros [=].
      * intros lines' _ [=].
  - simpl. split; [|split; [|split; [|split]]].
    + split; auto.
    + intros e. split; [discriminate|intros [=]].
    + intros domains. split; [discriminate|intros (lines & [=] & _)].
    + reflexivity.
    + intros lines [=].
  - simpl. split; [|split; [|split; [|split]]].
    + split; [|reflexivity]. intros _. right. left. eauto.
    + intros e. split; [discriminate|intros [=]].
    + intros domains. split; [discriminate|intros (lines & [=] & _)].
    + intros [=].
    + intros lines [=].
  - simpl. split; [|split; [|split; [|split]]].
    + split; [discriminate|].
      intros [[=]|[[msg [=]]|(lines & [=] & _)]].
    + intros e. split; [intros [= <-]; reflexivity|intros [= <-]; reflexivity].
    + intros domains. split; [discriminate|intros (lines & [=] & _)].
    + intros [=].
    + intros lines [=].
Qed.

Lemma X7_main_early_exit_witness :
  last (fst (AiDomains.main_start "words"
               (AiDomains.Readable ["apple"; "it's"; ""]) 10))
  = "No 5 or 6 letter words found in the dictionary. Exiting."
  /\ AiDomains.main_start "words" AiDomains.NotFound 10
     = (["Loading words from: words";
         "Error: Dictionary file not found at words"], Return None)
  /\ snd (AiDomains.main_start "words" (AiDomains.OtherFailure ValueError) 10)
     = Raise ValueError.
Proof.
  split; [|split].
  - destruct (X7_main_early_exit "words"
                (AiDomains.Readable ["apple"; "it's"; ""]) 10)
      as (_ & _ & _ & _ & Hlast).
    apply (Hlast ["apple"; "it's"; ""]); [reflexivity|vm_compute; reflexivity].
  - destruct (X7_main_early_exit "words" AiDomains.NotFound 10)
      as (_ & _ & _ & Hfound & _).
    rewrite (surjective_pairing (AiDomains.main_start "words" AiDomains.NotFound 10)).
    rewrite (Hfound eq_refl). reflexivity.
  - destruct (X7_main_early_exit "words" (AiDomains.OtherFailure ValueError) 10)
      as (_ & Hraise & _).
    apply Hraise. reflexivity.
Defined.

End aidomains_candidates.

(** ** A run of the pool over finished tasks *)

Section run_facts.
Import Py Eff.
Variable timeout : Q.
Variable name_of : string -> string.
Variable check : string -> except (string * bool).
Variable name : string -> string.
Variable verdict : string -> bool.
Hypothesis timeout_nonneg : (0 <= timeout)%Q.
Hypothesis check_returns : forall key, check key = Return (name key, verdict key).

Lemma submitted_result key :
  Pool.result {| Pool.wait := Some 0%Q; Pool.outcome := check key |} timeout
  = Return (name key, verdict key).
Proof.
  unfold Pool.result. simpl.
  destruct (Qle_bool 0 timeout) eqn:Hle; [apply check_returns|].
  apply Qle_bool_iff in timeout_nonneg. congruence.
Qed.

Lemma omap_submitted keys :
  omap (appended timeout) (Pool.submit_all check keys)
  = map name (filter (fun key => verdict key = true) keys).
Proof.
  induction keys as [|key keys IH]; [reflexivity|].
  rewrite filter_cons.
  change (omap (appended timeout) (Pool.submit_all check (key :: keys)))
    with (match appended timeout
                  (key, {| Pool.wait := Some 0%Q; Pool.outcome := check key |}) with
          | Some d => d :: omap (appended timeout) (Pool.submit_all check keys)
          | None => omap (appended timeout) (Pool.submit_all check keys)
          end).
  rewrite IH. unfold appended. simpl snd. rewrite submitted_result.
  destruct (verdict key) eqn:Hv.
  - rewrite decide_True by reflexivity. reflexivity.
  - rewrite decide_False by discriminate. reflexivity.
Qed.

Lemma run_available completed keys :
  completed ≡ₚ Pool.submit_all check keys ->
  Pool.available_domains (Pool.collect timeout name_of completed)
  ≡ₚ map name (filter (fun key => verdict key = true) keys).
Proof.
  intros Hperm. rewrite collect_available, Hperm, omap_submitted. reflexivity.
Qed.

Lemma run_member completed keys d :
  completed ≡ₚ Pool.submit_all check keys ->
  In d (Pool.available_domains (Pool.collect timeout name_of completed)) <->
  exists key, In key keys /\ verdict key = true /\ d = name key.
Proof.
  intros Hperm. rewrite <- list_elem_of_In, (run_available _ _ Hperm).
  rewrite list_elem_of_In, in_map_iff. split.
  - intros (key & <- & Hin). apply list_elem_of_In, list_elem_of_filter in Hin.
    exists key. rewrite <- list_elem_of_In. tauto.
  - intros (key & Hin & Hv & ->). exists key. split; [reflexivity|].
    apply list_elem_of_In, list_elem_of_filter. rewrite list_elem_of_In. auto.
Qed.

Lemma run_length completed keys :
  completed ≡ₚ Pool.submit_all check keys ->
  (length (Pool.available_domains (Pool.collect timeout name_of completed))
   <= length keys)%nat.
Proof.
  intros Hperm. rewrite (run_available _ _ Hperm), length_map.
  apply length_filter.
Qed.

Lemma run_NoDup completed keys :
  (forall a b, name a = name b -> a = b) ->
  completed ≡ₚ Pool.submit_all check keys ->
  NoDup keys ->
  NoDup (Pool.available_domains (Pool.collect timeout name_of completed)).
Proof.
  intros Hinj Hperm Hnd. rewrite (run_available _ _ Hperm).
  assert (Inj (=) (=) name) by exact Hinj.
  apply (NoDup_fmap_2 name), NoDup_filter, Hnd.
Qed.

Lemma fold_written_returning completed st :
  Forall (fun item => exists v, Pool.result (snd item) timeout = Return v) completed ->
  Pool.written (fold_left (Pool.step timeout name_of) completed st)
  = Pool.written st ++ map Available (omap (appended timeout) completed).
Proof.
  intros Hall. revert st.
  induction Hall as [|item completed [[d b] Hres] _ IH]; intros st; simpl.
  - rewrite app_nil_r. reflexivity.
  - rewrite IH. unfold Pool.step, appended at 2. rewrite Hres.
    destruct b; simpl; [rewrite <- app_assoc|]; reflexivity.
Qed.

(** Over finished tasks that returned, the loop writes the AVAILABLE line
    of every domain it appends and no other line. *)
Lemma run_written completed keys :
  completed ≡ₚ Pool.submit_all check keys ->
  Pool.written (Pool.collect timeout name_of completed)
  = map Available (Pool.available_domains (Pool.collect timeout name_of completed)).
Proof.
  intros Hperm. rewrite collect_available. unfold Pool.collect.
  rewrite fold_written_returning; [reflexivity|].
  rewrite Hperm. unfold Pool.submit_all. apply Forall_forall.
  intros item Hin. apply list_elem_of_In, in_map_iff in Hin as (key & <- & _).
  eexists. apply submitted_result.
Qed.

End run_facts.

(** ** The four scripts, from the candidates to the report *)

Section runs.
Import Py Eff Requests Subprocess.

Lemma In_sort d l : In d (sort l) <-> In d l.
Proof. rewrite <- !list_elem_of_In, sort_Permutation. reflexivity. Qed.

Lemma NoDup_sort (l : list string) : NoDup l -> NoDup (sort l).
Proof. intros Hnd. rewrite sort_Permutation. exact Hnd. Qed.

Lemma length_sort (l : list string) : length (sort l) = length l.
Proof. rewrite sort_Permutation. reflexivity. Qed.

Lemma says_true (r : except bool) :
  match r with Return true => true | _ => false end = true <-> r = Return true.
Proof. destruct r as [[|]|e]; split; intros H; (reflexivity || discriminate). Qed.

Lemma checkcomorai_wrapper net domain :
  result (CheckComOrAi.check_domain net domain)
  = Return (domain,
            match result (CheckComOrAi.is_domain_available net domain
                            CheckComOrAi.default_timeout) with
            | Return true => true
            | _ => false
            end).
Proof.
  unfold CheckComOrAi.check_domain.
  destruct (CheckComOrAi.is_domain_available _ _ _) as [[[|]|e] t]; reflexivity.
Qed.

Lemma aidomains_wrapper net domain :
  result (AiDomains.check_domain_wrapper net domain)
  = Return (domain,
            match result (AiDomains.is_domain_available net domain
                            AiDomains.default_timeout) with
            | Return true => true
            | _ => false
            end).
Proof.
  unfold AiDomains.check_domain_wrapper.
  destruct (AiDomains.is_domain_available _ _ _) as [[[|]|e] t]; reflexivity.
Qed.

Lemma findnames_wrapper run word :
  result (FindNames.check_domain run word)
  = Return (word +:+ ".com",
            match result (FindNames.is_domain_available run (word +:+ ".com")) with
            | Return true => true
            | _ => false
            end).
Proof.
  unfold FindNames.check_domain.
  destruct (FindNames.is_domain_available _ _) as [[[|]|e] t]; reflexivity.
Qed.

Lemma curl_wrapper run domain :
  result (CheckDomainsCurl.check_domain run domain)
  = Return (domain,
            match result (CheckDomainsCurl.is_domain_available run domain) with
            | Return true => true
            | _ => false
            end).
Proof.
  unfold CheckDomainsCurl.check_domain.
  destruct (CheckDomainsCurl.is_domain_available _ _) as [[[|]|e] t]; reflexivity.
Qed.

Lemma Qle_0_25 : (0 <= 25)%Q. Proof. discriminate. Qed.
Lemma Qle_0_30 : (0 <= 30)%Q. Proof. discriminate. Qed.
Lemma Qle_0_20 : (0 <= 20)%Q. Proof. discriminate. Qed.

(** X8.  A run of [checkcomorai.py]: whatever the order in which the
    tasks complete, the sorted report holds exactly the candidates for
    which [is_domain_available] returned True, never more entries than
    candidates and none twice when no candidate is listed twice; the loop
    writes one AVAILABLE line per domain it appends and no other line. *)
Theorem X8_checkcomorai_run (net : network) (domains_to_check : list string)
    (completed : list (string * Pool.future)) :
  completed ≡ₚ CheckComOrAi.future_to_domain net domains_to_check ->
  (forall domain,
     In domain (CheckComOrAi.reported completed) <->
     In domain domains_to_check
     /\ result (CheckComOrAi.is_domain_available net domain
                  CheckComOrAi.default_timeout) = Return true)
  /\ (length (CheckComOrAi.reported completed) <= length domains_to_check)%nat
  /\ (NoDup domains_to_check -> NoDup (CheckComOrAi.reported completed))
  /\ Pool.written (CheckComOrAi.collect completed)
     = map Available (Pool.available_domains (CheckComOrAi.collect completed)).
Proof.
  intros Hperm. unfold CheckComOrAi.reported, CheckComOrAi.collect.
  unfold CheckComOrAi.future_to_domain in Hperm.
  split; [|split; [|split]].
  - intros domain. rewrite In_sort.
    rewrite (run_member CheckComOrAi.result_timeout id _ _ _ Qle_0_25
               (checkcomorai_wrapper net) completed domains_to_check domain Hperm).
    split.
    + intros (key & Hin & Hv%says_true & ->). auto.
    + intros [Hin Hv]. exists domain. rewrite says_true. auto.
  - rewrite length_sort.
    apply (run_length CheckComOrAi.result_timeout id _ _ _ Qle_0_25
             (checkcomorai_wrapper net) completed domains_to_check Hperm).
  - intros Hnd. apply NoDup_sort.
    apply (run_NoDup CheckComOrAi.result_timeout id _ _ _ Qle_0_25
             (checkcomorai_wrapper net) completed domains_to_check);
      [auto|exact Hperm|exact Hnd].
  - apply (run_written CheckComOrAi.result_timeout id _ _ _ Qle_0_25
             (checkcomorai_wrapper net) completed domains_to_check Hperm).
Qed.

Lemma X8_checkcomorai_run_witness :
  In "soil.dev"
     (CheckComOrAi.reported
        (CheckComOrAi.future_to_domain (fun _ => Return not_found)
           ["soil.com"; "soil.dev"])).
Proof.
  destruct (X8_checkcomorai_run (fun _ => Return not_found) ["soil.com"; "soil.dev"]
              (CheckComOrAi.future_to_domain (fun _ => Return not_found)
                 ["soil.com"; "soil.dev"]) (reflexivity _)) as [Hmem _].
  apply Hmem. split; [simpl; auto|reflexivity].
Defined.

Lemma main_candidates_some lines workers domains :
  snd (AiDomains.main_candidates (Some lines) workers) = Some domains ->
  domains = AiDomains.domains_to_check (elements (AiDomains.load_words lines)).
Proof.
  unfold AiDomains.main_candidates.
  destruct (AiDomains.filtered_words (elements (AiDomains.load_words lines)));
    simpl; [discriminate|]. intros [= <-]. reflexivity.
Qed.

(** X9.  A run of [aidomains.py] over a dictionary: whatever the order in
    which the tasks complete, the sorted report holds exactly the domains
    [word.ai], for the alphabetic words of length 4 among the stripped and
    lower-cased lines, for which [is_domain_available] returned True; no
    domain is in it twice, and the loop writes one AVAILABLE line per
    domain it appends and no other line. *)
Theorem X9_aidomains_run (lines : list string) (workers : nat)
    (domains : list string) (net : network)
    (completed : list (string * Pool.future)) :
  snd (AiDomains.main_candidates (Some lines) workers) = Some domains ->
  completed ≡ₚ AiDomains.future_to_domain net domains ->
  (forall domain,
     In domain (AiDomains.reported completed) <->
     (exists word,
        (isalpha word = true
         /\ exists line, In line lines /\ word = lower (strip line))
        /\ String.length word = 4%nat
        /\ domain = word +:+ ".ai")
     /\ result (AiDomains.is_domain_available net domain
                  AiDomains.default_timeout) = Return true)
  /\ NoDup (AiDomains.reported completed)
  /\ Sorted String.le (AiDomains.reported completed)
  /\ Pool.written (AiDomains.collect completed)
     = map Available (Pool.available_domains (AiDomains.collect completed)).
Proof.
  intros Hmain Hperm. apply main_candidates_some in Hmain. subst domains.
  unfold AiDomains.reported, AiDomains.collect.
  unfold AiDomains.future_to_domain in Hperm.
  pose (keys := AiDomains.domains_to_check (elements (AiDomains.load_words lines))).
  split; [|split; [|split]].
  - intros domain. rewrite In_sort.
    rewrite (run_member AiDomains.result_timeout id _ _ _ Qle_0_30
               (aidomains_wrapper net) completed keys domain Hperm).
    split.
    + intros (key & Hin & Hv%says_true & ->). split; [|exact Hv].
      apply domains_to_check_spec in Hin as (word & Hword & Hlen & ->).
      exists word. split; [apply load_words_spec, Hword|auto].
    + intros [(word & Hword & Hlen & ->) Hv]. exists (word +:+ ".ai").
      rewrite says_true. split; [|auto].
      apply domains_to_check_spec. exists word.
      split; [apply load_words_spec, Hword|auto].
  - apply NoDup_sort.
    apply (run_NoDup AiDomains.result_timeout id _ _ _ Qle_0_30
             (aidomains_wrapper net) completed keys); [auto|exact Hperm|].
    apply ai_candidates_NoDup, NoDup_elements.
  - apply sort_Sorted.
  - apply (run_written AiDomains.result_timeout id _ _ _ Qle_0_30
             (aidomains_wrapper net) completed keys Hperm).
Qed.

Lemma X9_aidomains_run_witness :
  NoDup (AiDomains.reported
           (AiDomains.future_to_domain (fun _ => Return not_found)
              ["soil.ai"; "acre.ai"])).
Proof.
  apply (X9_aidomains_run small_dictionary 10 ["soil.ai"; "acre.ai"]
           (fun _ => Return not_found)
           (AiDomains.future_to_domain (fun _ => Return not_found)
              ["soil.ai"; "acre.ai"])).
  - vm_compute. reflexivity.
  - reflexivity.
Defined.

(** X10.  A run of [FindNames.py]: the report holds exactly the domains
    [word.com] of the words for which [is_domain_available] returned
    True, never more entries than words and none twice when no word is
    listed twice; the loop writes one AVAILABLE line per domain it appends
    and no other line. *)
Theorem X10_findnames_run (run : curl) (words_to_check : list string)
    (completed : list (string * Pool.future)) :
  completed ≡ₚ FindNames.future_to_domain run words_to_check ->
  (forall domain,
     In domain (FindNames.reported completed) <->
     exists word,
       In word words_to_check /\ domain = word +:+ ".com"
       /\ result (FindNames.is_domain_available run domain) = Return true)
  /\ (length (FindNames.reported completed) <= length words_to_check)%nat
  /\ (NoDup words_to_check -> NoDup (FindNames.reported completed))
  /\ Pool.written (FindNames.collect completed)
     = map Available (FindNames.reported completed).
Proof.
  intros Hperm. unfold FindNames.reported, FindNames.collect.
  unfold FindNames.future_to_domain in Hperm.
  split; [|split; [|split]].
  - intros domain.
    rewrite (run_member FindNames.result_timeout (fun word => word +:+ ".com")
               _ _ _ Qle_0_20 (findnames_wrapper run) completed words_to_check
               domain Hperm).
    split.
    + intros (key & Hin & Hv%says_true & ->). exists key. auto.
    + intros (word & Hin & -> & Hv). exists word. rewrite says_true. auto.
  - apply (run_length FindNames.result_timeout (fun word => word +:+ ".com")
             _ _ _ Qle_0_20 (findnames_wrapper run) completed words_to_check Hperm).
  - intros Hnd.
    apply (run_NoDup FindNames.result_timeout (fun word => word +:+ ".com")
             _ _ _ Qle_0_20 (findnames_wrapper run) completed words_to_check);
      [|exact Hperm|exact Hnd].
    intros a b Heq. apply (append_inj_l ".com"), Heq.
  - apply (run_written FindNames.result_timeout (fun word => word +:+ ".com")
             _ _ _ Qle_0_20 (findnames_wrapper run) completed words_to_check Hperm).
Qed.

Lemma X10_findnames_run_witness :
  In "soil.com"
     (FindNames.reported
        (FindNames.future_to_domain (fun _ => Return "HTTP/2 404 ") ["acre"; "soil"])).
Proof.
  destruct (X10_findnames_run (fun _ => Return "HTTP/2 404 ") ["acre"; "soil"]
              (FindNames.future_to_domain (fun _ => Return "HTTP/2 404 ")
                 ["acre"; "soil"]) (reflexivity _)) as [Hmem _].
  apply Hmem. exists "soil". split; [simpl; auto|]. split; reflexivity.
Defined.

(** X11.  A run of [checkdomains_curl.py]: the report holds exactly the
    listed domains for which [is_domain_available] returned True; a
    domain whose suffix is neither [com] nor [ai] is never in it. *)
Theorem X11_checkdomains_curl_run (run : curl) (domains_to_check : list string)
    (completed : list (string * Pool.future)) :
  completed ≡ₚ CheckDomainsCurl.future_to_domain run domains_to_check ->
  (forall domain,
     In domain (CheckDomainsCurl.reported completed) <->
     In domain domains_to_check
     /\ result (CheckDomainsCurl.is_domain_available run domain) = Return true)
  /\ (forall domain,
        In domain (CheckDomainsCurl.reported completed) ->
        CheckDomainsCurl.tld domain = "com" \/ CheckDomainsCurl.tld domain = "ai")
  /\ (length (CheckDomainsCurl.reported completed) <= length domains_to_check)%nat
  /\ Pool.written (CheckDomainsCurl.collect completed)
     = map Available (CheckDomainsCurl.reported completed).
Proof.
  intros Hperm. unfold CheckDomainsCurl.reported, CheckDomainsCurl.collect.
  unfold CheckDomainsCurl.future_to_domain in Hperm.
  assert (Hmem : forall domain,
            In domain (Pool.available_domains
                         (Pool.collect CheckDomainsCurl.result_timeout id completed)) <->
            In domain domains_to_check
            /\ result (CheckDomainsCurl.is_domain_available run domain) = Return true).
  { intros domain.
    rewrite (run_member CheckDomainsCurl.result_timeout id _ _ _ Qle_0_25
               (curl_wrapper run) completed domains_to_check domain Hperm).
    split.
    - intros (key & Hin & Hv%says_true & ->). auto.
    - intros [Hin Hv]. exists domain. rewrite says_true. auto. }
  split; [exact Hmem|]. split; [|split].
  - intros domain [_ Hv]%Hmem.
    destruct (decide (CheckDomainsCurl.tld domain = "com")) as [|Hcom]; [auto|].
    destruct (decide (CheckDomainsCurl.tld domain = "ai")) as [|Hai]; [auto|].
    exfalso. rewrite curl_other_suffix in Hv; [discriminate|].
    rewrite curl_rdap_url, !decide_False by assumption. reflexivity.
  - apply (run_length CheckDomainsCurl.result_timeout id _ _ _ Qle_0_25
             (curl_wrapper run) completed domains_to_check Hperm).
  - apply (run_written CheckDomainsCurl.result_timeout id _ _ _ Qle_0_25
             (curl_wrapper run) completed domains_to_check Hperm).
Qed.

Lemma X11_checkdomains_curl_run_witness :
  CheckDomainsCurl.reported
    (CheckDomainsCurl.future_to_domain (fun _ => Return "HTTP/2 404 ")
       ["MCPHub.com"; "MCPHub.org"])
  = ["MCPHub.com"]
  /\ (CheckDomainsCurl.tld "MCPHub.com" = "com"
      \/ CheckDomainsCurl.tld "MCPHub.com" = "ai").
Proof.
  split; [reflexivity|].
  destruct (X11_checkdomains_curl_run (fun _ => Return "HTTP/2 404 ")
              ["MCPHub.com"; "MCPHub.org"]
              (CheckDomainsCurl.future_to_domain (fun _ => Return "HTTP/2 404 ")
                 ["MCPHub.com"; "MCPHub.org"]) (reflexivity _)) as (_ & Htld & _).
  apply Htld. vm_compute. auto.
Defined.

End runs.

(** ** Exceptions on the way to the report *)

Section exceptions.
Import Py Eff Requests.

Lemma result_in_time fut timeout t :
  Pool.wait fut = Some t -> (t <= timeout)%Q ->
  Pool.result fut timeout = Pool.outcome fut.
Proof.
  intros Hwait Hle. unfold Pool.result. rewrite Hwait.
  apply Qle_bool_iff in Hle. rewrite Hle. reflexivity.
Qed.

(** X12.  A task whose call raised is skipped by the main loop: its round
    appends nothing and writes one line, the other tasks are collected as
    without it.  The line is the one for a timeout when the exception is a
    [concurrent.futures.TimeoutError], the error line otherwise. *)
Theorem X12_failed_task_skipped (timeout : Q) (name_of : string -> string)
    (pre post : list (string * Pool.future)) (key : string) (fut : Pool.future)
    (t : Q) (e : exn) :
  Pool.wait fut = Some t -> (t <= timeout)%Q -> Pool.outcome fut = Raise e ->
  (forall st,
     Pool.step timeout name_of st (key, fut)
     = {| Pool.available_domains := Pool.available_domains st;
          Pool.written :=
            Pool.written st
            ++ [if is_FuturesTimeoutError e then CheckTimeout (name_of key)
                else ResultError (name_of key) e] |})
  /\ Pool.available_domains (Pool.collect timeout name_of (pre ++ (key, fut) :: post))
     = Pool.available_domains (Pool.collect timeout name_of (pre ++ post)).
Proof.
  intros Hwait Hle Hout.
  assert (Hres : Pool.result fut timeout = Raise e)
    by (rewrite (result_in_time _ _ _ Hwait Hle); exact Hout).
  split.
  - intros st. unfold Pool.step. simpl. rewrite Hres.
    destruct (is_FuturesTimeoutError e); reflexivity.
  - rewrite !collect_available, !omap_app. simpl.
    unfold appended at 2. simpl. rewrite Hres. reflexivity.
Qed.

Lemma X12_failed_task_skipped_witness :
  Pool.available_domains
    (Pool.collect 25 id
       [("soil.dev", found "soil.dev");
        ("acre.dev", {| Pool.wait := Some 0%Q;
                        Pool.outcome := Raise (OtherException "boom") |});
        ("loam.dev", found "loam.dev")])
  = ["soil.dev"; "loam.dev"].
Proof.
  destruct (X12_failed_task_skipped 25 id [("soil.dev", found "soil.dev")]
              [("loam.dev", found "loam.dev")] "acre.dev"
              {| Pool.wait := Some 0%Q;
                 Pool.outcome := Raise (OtherException "boom") |}
              0 (OtherException "boom") eq_refl) as [_ Hskip];
    [discriminate|reflexivity|].
  exact (eq_trans Hskip eq_refl).
Defined.

(** X13.  An exception of [requests.get] that is no [RequestException],
    or of [r.json()] on a 200 answer that is no [ValueError], escapes
    [is_domain_available] in the two requests scripts; the wrapper catches
    it, writes its line and reports the domain as not available. *)
Theorem X13_wrapper_catches (net : network) (domain : string) (e : exn) :
  (net (CheckComOrAi.url domain) = Raise e /\ is_RequestException e = false
   \/ exists r, net (CheckComOrAi.url domain) = Return r
                /\ status_code r = 200%Z /\ json r = Raise e
                /\ is_ValueError e = false) ->
  (forall timeout,
     result (CheckComOrAi.is_domain_available net domain timeout) = Raise e)
  /\ CheckComOrAi.check_domain net domain
     = (Return (domain, false),
        [Get (CheckComOrAi.url domain) CheckComOrAi.default_timeout;
         Write (WrapperError domain e)])
  /\ (AiDomains.tld domain = "ai" ->
      (forall timeout,
         result (AiDomains.is_domain_available net domain timeout) = Raise e)
      /\ result (AiDomains.check_domain_wrapper net domain) = Return (domain, false)
      /\ In (Write (WrapperError domain e))
            (trace (AiDomains.check_domain_wrapper net domain))).
Proof.
  intros Hcase.
  assert (Hcheck : forall timeout,
            CheckComOrAi.is_domain_available net domain timeout
            = (Raise e, [Get (CheckComOrAi.url domain) timeout])).
  { intros timeout. destruct Hcase as [[Hnet He]|(r & Hnet & Hs & Hjson & He)].
    - unfold CheckComOrAi.is_domain_available. rewrite bind_emit, Hnet, He.
      reflexivity.
    - rewrite (checkcomorai_response _ _ _ _ Hnet), Hs, Hjson, He. reflexivity. }
  split; [intros timeout; rewrite Hcheck; reflexivity|]. split.
  - unfold CheckComOrAi.check_domain. rewrite Hcheck. reflexivity.
  - intros Hai.
    assert (Hurl : AiDomains.url domain = CheckComOrAi.url domain).
    { rewrite aidomains_url, checkcomorai_url.
      change (CheckComOrAi.tld domain) with (AiDomains.tld domain). rewrite Hai.
      reflexivity. }
    rewrite <- Hurl in Hcase.
    assert (Hwrap : exists t, forall timeout,
              AiDomains.is_domain_available net domain timeout
              = (Raise e, Get (AiDomains.url domain) timeout :: t)).
    { destruct Hcase as [[Hnet He]|(r & Hnet & Hs & Hjson & He)].
      - exists []. intros timeout. unfold AiDomains.is_domain_available.
        apply String.eqb_eq in Hai. rewrite Hai. simpl negb. cbv iota.
        rewrite bind_emit, Hnet.
        destruct (is_Timeout e) eqn:Ht; [destruct e; discriminate|].
        rewrite He. reflexivity.
      - eexists. intros timeout.
        rewrite (aidomains_response _ _ _ _ Hai Hnet),
          (aidomains_classify_200 _ _ Hs), Hjson, He. reflexivity. }
    destruct Hwrap as [t Hwrap].
    split; [intros timeout; rewrite Hwrap; reflexivity|].
    unfold AiDomains.check_domain_wrapper. rewrite Hwrap.
    split; [reflexivity|]. unfold trace. simpl. right.
    apply in_or_app. right. left. reflexivity.
Qed.

Lemma X13_wrapper_catches_witness :
  CheckComOrAi.check_domain (fun _ => Raise (OtherException "boom")) "soil.dev"
  = (Return ("soil.dev", false),
     [Get "https://rdap.googleapis.com/rdap/v1/domain/soil.dev" 10;
      Write (WrapperError "soil.dev" (OtherException "boom"))]).
Proof.
  destruct (X13_wrapper_catches (fun _ => Raise (OtherException "boom")) "soil.dev"
              (OtherException "boom")) as (_ & Hwrap & _).
  - left. split; reflexivity.
  - exact Hwrap.
Defined.

(** X14.  The two requests scripts return True in two cases only: the
    answer has status 404, or it has status 200 and a JSON body that is a
    dict whose [errorCode] compares equal to 400 or 404.  No other
    status, no exception and, in [aidomains.py], no suffix other than
    [ai] gives True. *)
Theorem X14_available_only_when (net : network) (domain : string) (timeout : Q) :
  (result (CheckComOrAi.is_domain_available net domain timeout) = Return true <->
     exists r,
       net (CheckComOrAi.url domain) = Return r
       /\ (status_code r = 404%Z
           \/ status_code r = 200%Z
              /\ exists j, json r = Return j /\ Json.errorCode_not_found j = true))
  /\
  (result (AiDomains.is_domain_available net domain timeout) = Return true <->
     AiDomains.tld domain = "ai"
     /\ exists r,
          net (AiDomains.url domain) = Return r
          /\ (status_code r = 404%Z
              \/ status_code r = 200%Z
                 /\ exists j, json r = Return j /\ Json.errorCode_not_found j = true)).
Proof.
  assert (Hclass : forall r v,
            (if (status_code r =? 404)%Z then Return true
             else if (status_code r =? 200)%Z then v else Return false)
            = Return true <->
            status_code r = 404%Z \/ status_code r = 200%Z /\ v = Return true).
  { intros r v. destruct (Z.eqb_spec (status_code r) 404) as [H404|H404].
    - split; auto.
    - destruct (Z.eqb_spec (status_code r) 200) as [H200|H200].
      + split; [auto|]. intros [?|[_ ?]]; [contradiction|assumption].
      + split; [discriminate|]. intros [?|[? _]]; contradiction. }
  assert (Hjson : forall r (w : exn -> except bool),
            (forall e, w e <> Return true) ->
            match json r with
            | Return j => Return (Json.errorCode_not_found j)
            | Raise e => w e
            end = Return true <->
            exists j, json r = Return j /\ Json.errorCode_not_found j = true).
  { intros r w Hw. destruct (json r) as [j|e].
    - split; [intros [= H]; eauto|]. intros (j' & [= <-] & ->). reflexivity.
    - split; [intros H; destruct (Hw e H)|]. intros (j & [=] & _). }
  split.
  - destruct (net (CheckComOrAi.url domain)) as [r|e] eqn:Hnet.
    + rewrite (checkcomorai_response _ _ _ _ Hnet). simpl.
      rewrite Hclass, Hjson by (intros e; destruct (is_ValueError e); discriminate).
      split; [eauto|]. intros (r' & [= <-] & H). exact H.
    + unfold CheckComOrAi.is_domain_available. rewrite bind_emit, Hnet.
      split; [destruct (is_RequestException e); discriminate|].
      intros (r & [=] & _).
  - destruct (decide (AiDomains.tld domain = "ai")) as [Hai|Hne].
    + destruct (net (AiDomains.url domain)) as [r|e] eqn:Hnet.
      * rewrite (aidomains_response _ _ _ _ Hai Hnet). simpl.
        assert (Hres : result (AiDomains.classify domain r)
                       = if (status_code r =? 404)%Z then Return true
                         else if (status_code r =? 200)%Z then
                           match json r with
                           | Return j => Return (Json.errorCode_not_found j)
                           | Raise e => if is_ValueError e then Return false else Raise e
                           end
                         else Return false).
        { unfold AiDomains.classify.
          destruct (status_code r =? 404)%Z; [reflexivity|].
          destruct (status_code r =? 200)%Z.
          - destruct (json r) as [j|e].
            + destruct (Json.errorCode_not_found j); reflexivity.
            + destruct (is_ValueError e); reflexivity.
          - destruct (status_code r =? 429)%Z; reflexivity. }
        rewrite Hres, Hclass,
          Hjson by (intros e; destruct (is_ValueError e); discriminate).
        split; [eauto|]. intros (_ & r' & [= <-] & H). exact H.
      * unfold AiDomains.is_domain_available.
        pose proof Hai as Hai'. apply String.eqb_eq in Hai'. rewrite Hai'.
        simpl negb. cbv iota. rewrite bind_emit, Hnet.
        split; [|intros (_ & r & [=] & _)].
        destruct (is_Timeout e); [discriminate|].
        destruct (is_RequestException e); discriminate.
    + rewrite (aidomains_other_suffix _ _ _ Hne).
      split; [discriminate|]. intros [Hai _]. contradiction.
Qed.

End exceptions.

(** ** The scripts against each other *)

Section agreement.
Import Py Eff Requests Subprocess.

(** Case analysis on every test and every outcome left in the goal. *)
Ltac by_cases :=
  repeat match goal with
  | |- context [if ?c then _ else _] => destruct c
  | |- context [match ?x with Return _ => _ | Raise _ => _ end] => destruct x
  end;
  reflexivity.

(** X15.  On a candidate with suffix [ai], [checkcomorai.py] and
    [aidomains.py] query the same URL and return the same verdict (or let
    the same exception escape), whatever the network does. *)
Theorem X15_requests_scripts_agree_on_ai (domain : string) :
  CheckComOrAi.tld domain = "ai" ->
  CheckComOrAi.url domain = AiDomains.url domain
  /\ forall net timeout,
       result (CheckComOrAi.is_domain_available net domain timeout)
       = result (AiDomains.is_domain_available net domain timeout).
Proof.
  intros Hai.
  assert (Hurl : CheckComOrAi.url domain = AiDomains.url domain).
  { rewrite aidomains_url, checkcomorai_url, Hai. reflexivity. }
  split; [exact Hurl|]. intros net timeout.
  destruct (net (AiDomains.url domain)) as [r|e] eqn:Hnet.
  - rewrite (aidomains_response _ _ _ _ Hai Hnet).
    rewrite <- Hurl in Hnet. rewrite (checkcomorai_response _ _ _ _ Hnet).
    simpl. unfold AiDomains.classify.
    destruct (status_code r =? 404)%Z; [reflexivity|].
    destruct (status_code r =? 200)%Z.
    + destruct (json r) as [j|e].
      * destruct (Json.errorCode_not_found j); reflexivity.
      * destruct (is_ValueError e); reflexivity.
    + destruct (status_code r =? 429)%Z; reflexivity.
  - unfold AiDomains.is_domain_available, CheckComOrAi.is_domain_available.
    change (AiDomains.tld domain) with (CheckComOrAi.tld domain).
    rewrite Hai, !bind_emit, Hnet, Hurl, Hnet. simpl.
    destruct e; reflexivity.
Qed.

Lemma X15_requests_scripts_agree_on_ai_witness :
  CheckComOrAi.url "Soil.AI" = AiDomains.url "Soil.AI".
Proof. apply (X15_requests_scripts_agree_on_ai "Soil.AI"). reflexivity. Defined.

(** X16.  On a candidate with suffix [com], [FindNames.py] and
    [checkdomains_curl.py] query the same URL and return the same verdict,
    whatever curl does. *)
Theorem X16_curl_scripts_agree_on_com (domain : string) :
  CheckDomainsCurl.tld domain = "com" ->
  CheckDomainsCurl.rdap_url domain
  = Some ("https://rdap.verisign.com/com/v1/domain/" +:+ domain)
  /\ forall run,
       result (FindNames.is_domain_available run domain)
       = result (CheckDomainsCurl.is_domain_available run domain).
Proof.
  intros Hcom.
  assert (Hurl : CheckDomainsCurl.rdap_url domain
                 = Some ("https://rdap.verisign.com/com/v1/domain/" +:+ domain)).
  { rewrite curl_rdap_url, decide_True by assumption. reflexivity. }
  split; [exact Hurl|]. intros run.
  destruct (run ("https://rdap.verisign.com/com/v1/domain/" +:+ domain))
    as [stdout|e] eqn:Hrun.
  - rewrite (findnames_response _ _ _ Hrun), (curl_response _ _ _ _ Hurl Hrun).
    cbv zeta.
    destruct (contains "404" _); [reflexivity|].
    destruct (contains "200" _); [reflexivity|].
    destruct (contains "429" _); reflexivity.
  - rewrite (findnames_error _ _ _ Hrun).
    unfold CheckDomainsCurl.is_domain_available.
    rewrite Hurl, bind_emit, Hrun.
    destruct (is_TimeoutExpired e); reflexivity.
Qed.

Lemma X16_curl_scripts_agree_on_com_witness :
  CheckDomainsCurl.rdap_url "MCPHub.com"
  = Some "https://rdap.verisign.com/com/v1/domain/MCPHub.com".
Proof. apply (X16_curl_scripts_agree_on_com "MCPHub.com"). reflexivity. Defined.

(** X17.  No prober asks twice: a call of [is_domain_available] makes one
    request in [checkcomorai.py] and [FindNames.py], one or none in
    [aidomains.py] (none unless the suffix is [ai]) and in
    [checkdomains_curl.py] (none unless the suffix is [com] or [ai]),
    whatever the answer or the exception. *)
Theorem X17_one_request_at_most (domain : string) :
  (forall net timeout,
     requests_made (trace (CheckComOrAi.is_domain_available net domain timeout))
     = 1%nat)
  /\ (forall net timeout,
        requests_made (trace (AiDomains.is_domain_available net domain timeout))
        = if decide (AiDomains.tld domain = "ai") then 1%nat else 0%nat)
  /\ (forall run,
        requests_made (trace (FindNames.is_domain_available run domain)) = 1%nat)
  /\ (forall run,
        requests_made (trace (CheckDomainsCurl.is_domain_available run domain))
        = if decide (CheckDomainsCurl.tld domain = "com"
                     \/ CheckDomainsCurl.tld domain = "ai")
          then 1%nat else 0%nat).
Proof.
  split; [|split; [|split]].
  - intros net timeout.
    unfold CheckComOrAi.is_domain_available, bind, emit, ret, raise, trace,
      requests_made.
    destruct (net (CheckComOrAi.url domain)) as [r|e]; by_cases.
  - intros net timeout. case_decide as Hai.
    + apply String.eqb_eq in Hai.
      unfold AiDomains.is_domain_available, AiDomains.classify, bind, emit, ret,
        raise, trace, requests_made.
      rewrite Hai. simpl negb. cbv iota.
      destruct (net (AiDomains.url domain)) as [r|e]; by_cases.
    + rewrite (aidomains_other_suffix _ _ _ Hai). reflexivity.
  - intros run.
    unfold FindNames.is_domain_available, bind, emit, ret, raise, trace,
      requests_made.
    cbv zeta. destruct (run _) as [stdout|e]; by_cases.
  - intros run.
    destruct (decide (CheckDomainsCurl.tld domain = "com"
                      \/ CheckDomainsCurl.tld domain = "ai")) as [Hs|Hs];
      pose proof (curl_rdap_url domain) as Hurl.
    + assert (exists url, CheckDomainsCurl.rdap_url domain = Some url) as [url Hsome].
      { rewrite Hurl. repeat case_decide; eauto; tauto. }
      unfold CheckDomainsCurl.is_domain_available, bind, emit, ret, raise, trace,
        requests_made.
      rewrite Hsome. destruct (run url) as [stdout|e]; by_cases.
    + rewrite curl_other_suffix; [reflexivity|].
      rewrite Hurl. repeat case_decide; tauto.
Qed.

(** X19.  The words [FindNames.py] checks are the lower-cased forms of
    the six-character entries of the word set: each is six characters
    long and in lower case. *)
Theorem X19_words_to_check_shape (english_words : list string) (word : string) :
  (In word (FindNames.words_to_check english_words) <->
     exists entry,
       In entry english_words /\ String.length entry = 6%nat /\ word = lower entry)
  /\ (In word (FindNames.words_to_check english_words) ->
        String.length word = 6%nat /\ lower word = word).
Proof.
  assert (Hmem : In word (FindNames.words_to_check english_words) <->
                 exists entry,
                   In entry english_words /\ String.length entry = 6%nat
                   /\ word = lower entry).
  { unfold FindNames.words_to_check. rewrite in_map_iff. split.
    - intros (entry & <- & Hin%list_elem_of_In%list_elem_of_filter).
      exists entry. rewrite <- list_elem_of_In. tauto.
    - intros (entry & Hin & Hlen & ->). exists entry. split; [reflexivity|].
      apply list_elem_of_In, list_elem_of_filter. rewrite list_elem_of_In. auto. }
  split; [exact Hmem|].
  intros (entry & _ & Hlen & ->)%Hmem.
  rewrite length_lower, lower_idem. auto.
Qed.

Lemma X19_words_to_check_shape_witness :
  String.length "street" = 6%nat /\ lower "street" = "street".
Proof.
  apply (X19_words_to_check_shape ["Street"; "road"; "avenue"] "street").
  vm_compute. auto.
Defined.

End agreement.

(** ** The files the scripts write *)

Section listings.
Import Py.

Lemma listing_count (l : list string) (d : string) :
  count_occ string_dec (map (fun domain => domain +:+ String LF "") l)
    (d +:+ String LF "")
  = count_occ string_dec l d.
Proof.
  apply (count_occ_map_inj (fun domain => domain +:+ String LF "")).
  intros a b. apply append_inj_l.
Qed.

(** Written one per line and read back by lines, a list of domains comes
    back as it was, followed by the empty piece after the last newline. *)
Lemma listing_read_back (l : list string) :
  Forall (fun domain => free_of LF domain = true) l ->
  split LF (String.concat "" (map (fun domain => domain +:+ String LF "") l))
  = l ++ [""].
Proof.
  induction 1 as [|d l Hd Hl IH]; [reflexivity|].
  simpl map. rewrite concat_cons, append_assoc.
  change (String LF "" +:+ ?s) with (String LF s).
  rewrite split_app, (split_free _ _ Hd), IH. reflexivity.
Qed.

(** X18.  The listing that [aidomains.py], [checkcomorai.py] and
    [checkdomains_curl.py] write after the header of their file: the single
    line [None] when nothing was found; otherwise every domain as often as
    it is in the list (once, for a list without repetition), and read back
    by lines the text is the list itself. *)
Theorem X18_file_listing (dictionary : string)
    (available_domains domains_to_check base_names_to_check listing : list string) :
  listing = drop 2 (AiDomains.file_writes dictionary available_domains domains_to_check)
  \/ listing = drop 3 (CheckComOrAi.file_writes available_domains domains_to_check
                         base_names_to_check)
  \/ listing = drop 3 (CheckDomainsCurl.file_writes available_domains domains_to_check) ->
  (available_domains = [] -> listing = ["None" +:+ String LF ""])
  /\ (available_domains <> [] ->
      forall domain,
        count_occ string_dec listing (domain +:+ String LF "")
        = count_occ string_dec available_domains domain)
  /\ (available_domains <> [] ->
      Forall (fun domain => free_of LF domain = true) available_domains ->
      split LF (String.concat "" listing) = available_domains ++ [""]).
Proof.
  intros Hlisting.
  assert (Heq : listing
                = match available_domains with
                  | [] => ["None" +:+ String LF ""]
                  | _ => map (fun domain => domain +:+ String LF "") available_domains
                  end)
    by (destruct Hlisting as [->|[->| ->]]; reflexivity).
  rewrite Heq. split; [|split].
  - intros ->. reflexivity.
  - intros Hne domain. destruct available_domains as [|d l]; [contradiction|].
    apply listing_count.
  - intros Hne Hfree. destruct available_domains as [|d l]; [contradiction|].
    apply listing_read_back, Hfree.
Qed.

Lemma X18_file_listing_witness :
  drop 2 (AiDomains.file_writes "words" [] ["soil.ai"]) = ["None" +:+ String LF ""]
  /\ split LF (String.concat ""
                 (drop 3 (CheckComOrAi.file_writes ["acre.dev"; "soil.ai"]
                            ["acre.dev"; "soil.ai"; "soil.com"] ["soil"; "acre"])))
     = ["acre.dev"; "soil.ai"; ""].
Proof.
  split.
  - destruct (X18_file_listing "words" [] ["soil.ai"] []
                (drop 2 (AiDomains.file_writes "words" [] ["soil.ai"])))
      as (Hnone & _); [left; reflexivity|].
    apply Hnone. reflexivity.
  - destruct (X18_file_listing "" ["acre.dev"; "soil.ai"]
                ["acre.dev"; "soil.ai"; "soil.com"] ["soil"; "acre"]
                (drop 3 (CheckComOrAi.file_writes ["acre.dev"; "soil.ai"]
                           ["acre.dev"; "soil.ai"; "soil.com"] ["soil"; "acre"])))
      as (_ & _ & Hread); [right; left; reflexivity|].
    apply Hread; [discriminate|repeat constructor].
Defined.

End listings.

(** ** What an Available verdict leaves behind, and what the body test reads *)

Section verdict_details.
Import Py Eff Requests Subprocess.

(** Case analysis on every test and every outcome left in the goal; the
    cases with another result are closed by the hypothesis on it. *)
Ltac true_cases :=
  repeat match goal with
  | |- context [if ?c then _ else _] => destruct c
  | |- context [match ?x with Return _ => _ | Raise _ => _ end] => destruct x
  end;
  simpl; intros Htrue; (discriminate Htrue || reflexivity).

(** X20.  A verdict of True comes without a line written and without the
    2 second pause: the effects of such a call are the request alone, and
    in [aidomains.py] the request and its random pause. *)
Theorem X20_available_is_silent (domain : string) :
  (forall net timeout,
     result (CheckComOrAi.is_domain_available net domain timeout) = Return true ->
     trace (CheckComOrAi.is_domain_available net domain timeout)
     = [Get (CheckComOrAi.url domain) timeout])
  /\ (forall net timeout,
        result (AiDomains.is_domain_available net domain timeout) = Return true ->
        trace (AiDomains.is_domain_available net domain timeout)
        = [Get (AiDomains.url domain) timeout; Sleep (Uniform (1 # 10) (3 # 10))])
  /\ (forall run,
        result (FindNames.is_domain_available run domain) = Return true ->
        trace (FindNames.is_domain_available run domain)
        = [Curl ("https://rdap.verisign.com/com/v1/domain/" +:+ domain) 5])
  /\ (forall run,
        result (CheckDomainsCurl.is_domain_available run domain) = Return true ->
        exists url,
          CheckDomainsCurl.rdap_url domain = Some url
          /\ trace (CheckDomainsCurl.is_domain_available run domain)
             = [Curl url 10]).
Proof.
  split; [|split; [|split]].
  - intros net timeout.
    unfold CheckComOrAi.is_domain_available, bind, emit, ret, raise, trace, result.
    destruct (net (CheckComOrAi.url domain)) as [r|e]; true_cases.
  - intros net timeout.
    unfold AiDomains.is_domain_available, AiDomains.classify, bind, emit, ret,
      raise, trace, result.
    destruct (negb (AiDomains.tld domain =? "ai")%string);
      [simpl; discriminate|].
    destruct (net (AiDomains.url domain)) as [r|e]; true_cases.
  - intros run.
    unfold FindNames.is_domain_available, bind, emit, ret, raise, trace, result.
    cbv zeta. destruct (run _) as [stdout|e]; true_cases.
  - intros run.
    unfold CheckDomainsCurl.is_domain_available, bind, emit, ret, raise, trace,
      result.
    destruct (CheckDomainsCurl.rdap_url domain) as [url|]; [|simpl; discriminate].
    intros Htrue. exists url. split; [reflexivity|]. revert Htrue.
    destruct (run url) as [stdout|e]; true_cases.
Qed.

Lemma X20_available_is_silent_witness :
  trace (AiDomains.is_domain_available (fun _ => Return not_found) "soil.ai" 10)
  = [Get (AiDomains.url "soil.ai") 10; Sleep (Uniform (1 # 10) (3 # 10))].
Proof.
  destruct (X20_available_is_silent "soil.ai") as (_ & Hai & _).
  apply Hai. reflexivity.
Defined.

(** X21.  The test on a 200 body reads the top-level [errorCode] and
    nothing else: adding, changing or removing any other field leaves the
    verdict as it was, and a body without the field is never a match. *)
Theorem X21_only_errorCode_counts (m : gmap string Json.value) (key : string)
    (v : Json.value) :
  key <> "errorCode" ->
  Json.errorCode_not_found (Json.Object (<[key := v]> m))
  = Json.errorCode_not_found (Json.Object m)
  /\ Json.errorCode_not_found (Json.Object (delete key m))
     = Json.errorCode_not_found (Json.Object m)
  /\ Json.errorCode_not_found (Json.Object (delete "errorCode" m)) = false.
Proof.
  intros Hkey. unfold Json.errorCode_not_found, Json.get. simpl.
  rewrite lookup_insert_ne, lookup_delete_ne, lookup_delete_eq by assumption.
  auto.
Qed.

Lemma X21_only_errorCode_counts_witness :
  Json.errorCode_not_found
    (Json.Object (<["title" := Json.Str "Domain Not Found"]>
                    {[ "errorCode" := Json.Int 404 ]}))
  = Json.errorCode_not_found not_found_body.
Proof.
  apply (X21_only_errorCode_counts {[ "errorCode" := Json.Int 404 ]} "title"
           (Json.Str "Domain Not Found")).
  discriminate.
Defined.

Lemma lower_char_dot c : Ascii.eqb (lower_char c) "." = Ascii.eqb c ".".
Proof. destruct c as [[] [] [] [] [] [] [] []]; reflexivity. Qed.

Lemma free_of_dot_lower s : free_of "." (lower s) = free_of "." s.
Proof.
  unfold free_of. induction s as [|c s IH]; [reflexivity|].
  simpl. rewrite lower_char_dot, IH. reflexivity.
Qed.

(** X22.  The resolver of [checkcomorai.py] looks at the suffix only, and
    without regard to case: two names whose suffixes differ in case alone
    get the same template, and the name goes into the URL as it was given. *)
Theorem X22_resolver_ignores_case (label label' suffix : string) :
  free_of "." suffix = true ->
  CheckComOrAi.tld (label +:+ "." +:+ suffix)
  = CheckComOrAi.tld (label' +:+ "." +:+ lower suffix)
  /\ CheckComOrAi.RDAP_ENDPOINTS !! CheckComOrAi.tld (label +:+ "." +:+ suffix)
     = CheckComOrAi.RDAP_ENDPOINTS !! CheckComOrAi.tld (label' +:+ "." +:+ lower suffix)
  /\ exists base,
       CheckComOrAi.url (label +:+ "." +:+ suffix)
       = base +:+ label +:+ "." +:+ suffix.
Proof.
  intros Hfree.
  assert (Htld : CheckComOrAi.tld (label +:+ "." +:+ suffix)
                 = CheckComOrAi.tld (label' +:+ "." +:+ lower suffix)).
  { rewrite !tld_after_last_dot, lower_idem; [reflexivity| |assumption].
    rewrite free_of_dot_lower. assumption. }
  split; [exact Htld|]. split; [rewrite Htld; reflexivity|].
  rewrite checkcomorai_url. repeat case_decide; eexists; reflexivity.
Qed.

Lemma X22_resolver_ignores_case_witness :
  CheckComOrAi.tld "MCPHub.COM" = CheckComOrAi.tld "soil.com".
Proof.
  apply (X22_resolver_ignores_case "MCPHub" "soil" "COM"). reflexivity.
Defined.

End verdict_details.
